(** * Authentication and session core of the ERP front end

    A shallow embedding of the credential store
    ([frontend/src/stores/authStore.ts]), the two axios instances and their
    interceptors ([frontend/src/services/api.ts]), the operator login page
    ([pages/super/SuperLogin]) and the tenant route guard with its payment
    poll ([App.tsx], [TenantProtectedRoute]), followed by the properties
    that the specification states about them.

    Conventions.  A TypeScript value of type [string | null] or
    [string | undefined] is an [option string]; JavaScript truthiness of
    such a value is [truthy].  Numbers are [Z].  A headers object is a
    finite map from header names to values. *)

From stdpp Require Import base strings gmap list.

Local Open Scope string_scope.
Local Open Scope list_scope.

(** ** JavaScript helpers *)

(** [if (s)] for [s : string | null | undefined]: the empty string, [null]
    and [undefined] are falsy. *)
Definition truthy (s : option string) : bool :=
  match s with
  | Some x => negb (String.eqb x "")
  | None => false
  end.

(** [a || b] on optional strings. *)
Definition js_or (a b : option string) : option string :=
  if truthy a then a else b.

(** [a || d] where [d] is a string literal. *)
Definition or_default (a : option string) (d : string) : string :=
  match a with
  | Some x => if String.eqb x "" then d else x
  | None => d
  end.

(** [`${s}`] in a template literal, for [s : string | null]. *)
Definition interp (s : option string) : string :=
  match s with
  | Some x => x
  | None => "null"
  end.

(** [!!b] for [b : boolean | undefined]. *)
Definition to_bool (b : option bool) : bool :=
  match b with
  | Some x => x
  | None => false
  end.

(** [s.startsWith(p)]. *)
Definition startsWith (s p : string) : bool := String.prefix p s.

(** [a === b] for two values of type [string | null] / [string | undefined],
    the left one being [null] and the right one [undefined] when absent:
    [null === undefined] is false. *)
Definition strict_eq_null_undef (a b : option string) : bool :=
  match a, b with
  | Some x, Some y => String.eqb x y
  | _, _ => false
  end.

(** ** Types ([frontend/src/types/index.ts]) *)

Module User.
Record t := mk {
  id : Z;
  username : string;
  email : option string;
  first_name : string;
  last_name : string;
  phone : option string;
  avatar_url : option string;
  role_id : Z;
  role_name : string;
  role_type : string;
  (* declared [string[]]; read with [?.] by the store *)
  permissions : option (list string);
  max_discount_percent : Z;
  assigned_warehouse_id : option Z;
  assigned_warehouse_name : option string;
  language : option string;
  tenant_id : option Z;
  tenant_name : option string;
  tenant_slug : option string;
  tenant_logo_url : option string;
  payment_required : option bool;
  payment_message : option string;
  tenant_features : option (gmap string bool)
}.

(** [{ ...user, payment_required: r, payment_message: m }] *)
Definition with_payment (u : t) (r : bool) (m : string) : t :=
  mk (id u) (username u) (email u) (first_name u) (last_name u) (phone u)
     (avatar_url u) (role_id u) (role_name u) (role_type u) (permissions u)
     (max_discount_percent u) (assigned_warehouse_id u)
     (assigned_warehouse_name u) (language u) (tenant_id u) (tenant_name u)
     (tenant_slug u) (tenant_logo_url u) (Some r) (Some m)
     (tenant_features u).
End User.

Module SuperAdmin.
Record t := mk {
  id : Z;
  username : string;
  email : option string;
  first_name : string;
  last_name : string
}.
End SuperAdmin.

(** ** Credential store ([frontend/src/stores/authStore.ts]) *)

Record AuthState := mkAuthState {
  (* tenant user auth *)
  user : option User.t;
  token : option string;
  refreshToken : option string;
  tenantSlug : option string;
  isAuthenticated : bool;
  (* super admin auth *)
  superAdmin : option SuperAdmin.t;
  superToken : option string;
  superRefreshToken : option string;
  isSuperAdmin : bool;
  _hasHydrated : bool
}.

Definition initialState : AuthState :=
  mkAuthState None None None None false None None None false false.

Definition setAuth (u : User.t) (tok rt slug : string) (s : AuthState)
  : AuthState :=
  mkAuthState (Some u) (Some tok) (Some rt) (Some slug) true
              (* clear super admin state *)
              None None None false
              (_hasHydrated s).

Definition setToken (tok : string) (s : AuthState) : AuthState :=
  mkAuthState (user s) (Some tok) (refreshToken s) (tenantSlug s)
              (isAuthenticated s)
              (superAdmin s) (superToken s) (superRefreshToken s)
              (isSuperAdmin s) (_hasHydrated s).

Definition setUser (u : User.t) (s : AuthState) : AuthState :=
  mkAuthState (Some u) (token s) (refreshToken s) (tenantSlug s)
              (isAuthenticated s)
              (superAdmin s) (superToken s) (superRefreshToken s)
              (isSuperAdmin s) (_hasHydrated s).

Definition logout (s : AuthState) : AuthState :=
  mkAuthState None None None None false
              (superAdmin s) (superToken s) (superRefreshToken s)
              (isSuperAdmin s) (_hasHydrated s).

Definition hasPermission (permission : string) (s : AuthState) : bool :=
  match user s with
  | None => false
  | Some u =>
      if String.eqb (User.role_type u) "director" then true
      else match User.permissions u with
           | Some ps => existsb (String.eqb permission) ps
           | None => false
           end
  end.

Definition setSuperAuth (admin : SuperAdmin.t) (tok rt : string)
  (s : AuthState) : AuthState :=
  mkAuthState (* clear tenant user state *)
              None None None None false
              (Some admin) (Some tok) (Some rt) true
              (_hasHydrated s).

Definition superLogout (s : AuthState) : AuthState :=
  mkAuthState (user s) (token s) (refreshToken s) (tenantSlug s)
              (isAuthenticated s)
              None None None false
              (_hasHydrated s).

Definition setHasHydrated (b : bool) (s : AuthState) : AuthState :=
  mkAuthState (user s) (token s) (refreshToken s) (tenantSlug s)
              (isAuthenticated s)
              (superAdmin s) (superToken s) (superRefreshToken s)
              (isSuperAdmin s) b.

(** A call of one of the two session-establishing actions. *)
Inductive EstablishCall :=
| EstablishTenant (u : User.t) (tok rt slug : string)
| EstablishOperator (admin : SuperAdmin.t) (tok rt : string).

Definition establish (c : EstablishCall) (s : AuthState) : AuthState :=
  match c with
  | EstablishTenant u tok rt slug => setAuth u tok rt slug s
  | EstablishOperator a tok rt => setSuperAuth a tok rt s
  end.

(** The store states observed after each call of a sequence, in order. *)
Fixpoint states_after (s : AuthState) (cs : list EstablishCall)
  : list AuthState :=
  match cs with
  | [] => []
  | c :: cs' => let s' := establish c s in s' :: states_after s' cs'
  end.

(** A domain has non-null tokens when its access or its refresh token is
    not [null]. *)
Definition tenant_has_tokens (s : AuthState) : Prop :=
  token s <> None \/ refreshToken s <> None.

Definition operator_has_tokens (s : AuthState) : Prop :=
  superToken s <> None \/ superRefreshToken s <> None.

Definition domain_exclusive (s : AuthState) : Prop :=
  ~ (tenant_has_tokens s /\ operator_has_tokens s).

Definition tenant_fields_cleared (s : AuthState) : Prop :=
  user s = None /\ token s = None /\ refreshToken s = None /\
  tenantSlug s = None /\ isAuthenticated s = false.

Definition operator_fields_cleared (s : AuthState) : Prop :=
  superAdmin s = None /\ superToken s = None /\
  superRefreshToken s = None /\ isSuperAdmin s = false.

(** ** Request gateway ([frontend/src/services/api.ts]) *)

(** The part of [InternalAxiosRequestConfig] that the interceptors read or
    write; the body is kept as an opaque serialised value. *)
Record RequestConfig := mkConfig {
  url : option string;
  baseURL : option string;
  method : string;
  headers : gmap string string;
  data : option string
}.

Definition set_baseURL (b : string) (c : RequestConfig) : RequestConfig :=
  mkConfig (url c) (Some b) (method c) (headers c) (data c).

(** [config.headers.Authorization = `Bearer ${tok}`] *)
Definition set_authorization (tok : string) (c : RequestConfig)
  : RequestConfig :=
  mkConfig (url c) (baseURL c) (method c)
           (<["Authorization" := "Bearer " +:+ tok]> (headers c)) (data c).

(** What [axios.create] was given. *)
Record InstanceDefaults := mkDefaults {
  default_baseURL : option string;
  default_headers : gmap string string
}.

Definition json_headers : gmap string string :=
  {["Content-Type" := "application/json"]}.

(** [api = axios.create({ headers })]: no base URL. *)
Definition api : InstanceDefaults := mkDefaults None json_headers.

(** [superApi = axios.create({ baseURL: '/api/v1/super', headers })]. *)
Definition superApi : InstanceDefaults :=
  mkDefaults (Some "/api/v1/super") json_headers.

(** The configuration that [inst.get(u)], [inst.post(u, body)], ... hand to
    the request interceptors: the instance defaults with the call's method,
    path and body. *)
Definition call_config (inst : InstanceDefaults) (m u : string)
  (body : option string) : RequestConfig :=
  mkConfig (Some u) (default_baseURL inst) m (default_headers inst) body.

(** Unused by the interceptors; kept as the source has it. *)
Definition getTenantBaseURL (store : AuthState) : string :=
  match tenantSlug store with
  | Some slug => if String.eqb slug "" then "/api/v1" else "/api/v1/" +:+ slug
  | None => "/api/v1"
  end.

(** [config.url && !config.url.startsWith('/api/v1/super')] *)
Definition tenant_scoped_url (u : option string) : bool :=
  match u with
  | Some p => negb (String.eqb p "") && negb (startsWith p "/api/v1/super")
  | None => false
  end.

(** Request interceptor of [api]. *)
Definition api_request (store : AuthState) (config : RequestConfig)
  : RequestConfig :=
  (* set tenant-scoped base URL *)
  let config1 :=
    if truthy (tenantSlug store) && tenant_scoped_url (url config)
    then set_baseURL ("/api/v1/" +:+ interp (tenantSlug store)) config
    else config in
  (* add auth token *)
  let tok := token store in
  if truthy tok then set_authorization (interp tok) config1 else config1.

(** Request interceptor of [superApi]. *)
Definition superApi_request (store : AuthState) (config : RequestConfig)
  : RequestConfig :=
  let tok := superToken store in
  if truthy tok then set_authorization (interp tok) config else config.

(** [error.response?.status] and [error.config] of an [AxiosError]. *)
Record AxiosError := mkError {
  response_status : option Z;
  config : option RequestConfig
}.

Definition is_401 (e : AxiosError) : bool :=
  match response_status e with
  | Some n => Z.eqb n 401
  | None => false
  end.

(** Requests sent with the global [axios] from inside the response
    interceptor of [api]. *)
Inductive NetCall :=
| RefreshPost (target : string) (refresh_token : string)
| Replay (c : RequestConfig).

(** What the interceptors act on: the store, the last value assigned to
    [window.location.href], and the requests sent so far, oldest first. *)
Record World := mkWorld {
  store : AuthState;
  href : option string;
  net : list NetCall
}.

(** Body of the refresh response: [data.tokens?.access_token] and
    [data.access_token]. *)
Record RefreshData := mkRefreshData {
  tokens_access_token : option string;
  access_token : option string
}.

(** Outcome of the awaited [axios.post(.../auth/refresh)].  [RefreshOk None]
    is a response whose body is [null]: reading [data.tokens] then throws
    inside the [try]. *)
Inductive RefreshReply :=
| RefreshOk (d : option RefreshData)
| RefreshFailed.

(** A handler suspended at [await axios.post(...)], with the locals it
    captured. *)
Record Suspended := mkSuspended {
  failed : AxiosError;
  captured_slug : string
}.

(** How the promise returned by a response-error handler settles:
    [Promise.reject(error)], or the promise of [axios(error.config)]. *)
Inductive Settled :=
| Rejected (e : AxiosError)
| Replayed (c : RequestConfig).

Definition tenant_login_path (slug : string) : string :=
  "/" +:+ slug +:+ "/login".

(** Response-error handler of [api], up to its first [await]. *)
Definition api_on_error (e : AxiosError) (w : World)
  : World * (Suspended + Settled) :=
  if is_401 e then
    let rt := refreshToken (store w) in
    let slug := tenantSlug (store w) in
    if truthy rt && truthy slug then
      (mkWorld (store w) (href w)
         (net w ++ [RefreshPost ("/api/v1/" +:+ interp slug +:+ "/auth/refresh")
                                (interp rt)]),
       inl (mkSuspended e (interp slug)))
    else
      let slug' := or_default slug "" in
      (mkWorld (logout (store w))
         (Some (if truthy (Some slug') then tenant_login_path slug'
                else "/s-panel/access"))
         (net w),
       inr (Rejected e))
  else (w, inr (Rejected e)).

(** The same handler, resumed with the outcome of the refresh call. *)
Definition api_on_refresh (k : Suspended) (r : RefreshReply) (w : World)
  : World * Settled :=
  let on_catch :=
    (mkWorld (logout (store w))
             (Some (tenant_login_path (captured_slug k))) (net w),
     Rejected (failed k)) in
  match r with
  | RefreshOk (Some d) =>
      let newToken := js_or (tokens_access_token d) (access_token d) in
      if truthy newToken then
        let st := setToken (interp newToken) (store w) in
        match config (failed k) with
        | Some c =>
            let c' := set_authorization (interp newToken) c in
            (mkWorld st (href w) (net w ++ [Replay c']), Replayed c')
        | None => (mkWorld st (href w) (net w), Rejected (failed k))
        end
      else (w, Rejected (failed k))
  | RefreshOk None => on_catch
  | RefreshFailed => on_catch
  end.

(** Response-error handler of [superApi]. *)
Definition superApi_on_error (e : AxiosError) (w : World)
  : World * Settled :=
  if is_401 e then
    (mkWorld (superLogout (store w)) (Some "/s-panel/access") (net w),
     Rejected e)
  else (w, Rejected e).

(** *** The event loop around the handlers

    Requests are numbered.  An event is either the arrival of a failed
    response for a request, which runs the handler up to its [await], or
    the arrival of the refresh response that a suspended handler waits
    for, which resumes it. *)
Inductive Event :=
| Fails (id : nat) (e : AxiosError)
| RefreshReturns (id : nat) (r : RefreshReply).

Record Loop := mkLoop {
  world : World;
  suspended : gmap nat Suspended;
  settled : gmap nat Settled
}.

Definition step (l : Loop) (ev : Event) : Loop :=
  match ev with
  | Fails id e =>
      match api_on_error e (world l) with
      | (w', inl k) => mkLoop w' (<[id := k]> (suspended l)) (settled l)
      | (w', inr r) => mkLoop w' (suspended l) (<[id := r]> (settled l))
      end
  | RefreshReturns id r =>
      match suspended l !! id with
      | Some k =>
          let '(w', out) := api_on_refresh k r (world l) in
          mkLoop w' (delete id (suspended l)) (<[id := out]> (settled l))
      | None => l
      end
  end.

Definition run (l : Loop) (evs : list Event) : Loop := fold_left step evs l.

Definition is_refresh (c : NetCall) : bool :=
  match c with
  | RefreshPost _ _ => true
  | Replay _ => false
  end.

Definition refresh_calls (w : World) : nat :=
  length (filter (fun c => is_refresh c = true) (net w)).

(** The configurations replayed so far, oldest first. *)
Definition replayed (w : World) : list RequestConfig :=
  omap (fun c => match c with Replay x => Some x | RefreshPost _ _ => None end)
       (net w).

(** ** Operator login page ([pages/super/SuperLogin]) *)

Module SuperLogin.

(** The [useState] cells of the page. *)
Record State := mkState {
  revealed : bool;
  clickCount : nat;
  step : nat;
  username : string;
  password : string;
  pin : string;
  securityCode : string;
  hasPin : bool;
  hasCode : bool;
  error : string;
  loading : bool;
  (* [setLockMsg] may be handed an undefined [detail] *)
  lockMsg : option string
}.

Definition initial : State :=
  mkState false 0 1 "" "" "" "" true true "" false (Some "").

(** [err.response?.status] and [err.response?.data?.detail]. *)
Record ErrorResponse := mkErr {
  status : option Z;
  detail : option string
}.

Record Step2Data := mkStep2 {
  has_pin : bool;
  has_code : bool
}.

Record Step4Data := mkStep4 {
  admin : SuperAdmin.t;
  access_token : string;
  refresh_token : string
}.

(** Outcome of an awaited [superApi.post]. *)
Inductive Reply (A : Type) :=
| Ok (d : A)
| Err (e : ErrorResponse).
Arguments Ok {A} d.
Arguments Err {A} e.

(** What a handler does, one statement at a time.  A posted body is the
    object literal as written: its keys with their values.
    [ResponseError] is what happens to a failed response before the
    handler's [catch] sees it: every request of the page goes through
    [superApi], whose response interceptor handles the error first. *)
Inductive Effect :=
| SetStep (n : nat)
| SetPassword (s : string)
| SetPin (s : string)
| SetSecurityCode (s : string)
| SetHasPin (b : bool)
| SetHasCode (b : bool)
| SetError (s : string)
| SetLoading (b : bool)
| SetLockMsg (s : option string)
| Post (path : string) (body : list (string * string))
| SetSuperAuth (a : SuperAdmin.t) (tok rt : string)
| Navigate (path : string)
| ResponseError (e : ErrorResponse).

(** The response interceptor of [superApi] on a failed response, for the
    store and the [window.location.href] it finds: on a 401 it logs the
    operator out and assigns the location. *)
Definition intercepted (e : ErrorResponse) (st : AuthState)
  (h : option string) : AuthState * option string :=
  let w := (superApi_on_error (mkError (status e) None) (mkWorld st h [])).1 in
  (store w, href w).

(** The page together with what it acts on. *)
Record Page := mkPage {
  ui : State;
  auth : AuthState;
  posts : list (string * list (string * string));
  (* where [navigate] last went *)
  location : option string;
  (* the last value assigned to [window.location.href] *)
  href : option string
}.

Definition set_ui (f : State -> State) (p : Page) : Page :=
  mkPage (f (ui p)) (auth p) (posts p) (location p) (href p).

Definition intercept (e : ErrorResponse) (p : Page) : Page :=
  let r := intercepted e (auth p) (href p) in
  mkPage (ui p) r.1 (posts p) (location p) r.2.

Definition apply (p : Page) (eff : Effect) : Page :=
  match eff with
  | SetStep n =>
      set_ui (fun s => mkState (revealed s) (clickCount s) n (username s)
        (password s) (pin s) (securityCode s) (hasPin s) (hasCode s)
        (error s) (loading s) (lockMsg s)) p
  | SetPassword x =>
      set_ui (fun s => mkState (revealed s) (clickCount s) (step s)
        (username s) x (pin s) (securityCode s) (hasPin s) (hasCode s)
        (error s) (loading s) (lockMsg s)) p
  | SetPin x =>
      set_ui (fun s => mkState (revealed s) (clickCount s) (step s)
        (username s) (password s) x (securityCode s) (hasPin s) (hasCode s)
        (error s) (loading s) (lockMsg s)) p
  | SetSecurityCode x =>
      set_ui (fun s => mkState (revealed s) (clickCount s) (step s)
        (username s) (password s) (pin s) x (hasPin s) (hasCode s)
        (error s) (loading s) (lockMsg s)) p
  | SetHasPin b =>
      set_ui (fun s => mkState (revealed s) (clickCount s) (step s)
        (username s) (password s) (pin s) (securityCode s) b (hasCode s)
        (error s) (loading s) (lockMsg s)) p
  | SetHasCode b =>
      set_ui (fun s => mkState (revealed s) (clickCount s) (step s)
        (username s) (password s) (pin s) (securityCode s) (hasPin s) b
        (error s) (loading s) (lockMsg s)) p
  | SetError x =>
      set_ui (fun s => mkState (revealed s) (clickCount s) (step s)
        (username s) (password s) (pin s) (securityCode s) (hasPin s)
        (hasCode s) x (loading s) (lockMsg s)) p
  | SetLoading b =>
      set_ui (fun s => mkState (revealed s) (clickCount s) (step s)
        (username s) (password s) (pin s) (securityCode s) (hasPin s)
        (hasCode s) (error s) b (lockMsg s)) p
  | SetLockMsg x =>
      set_ui (fun s => mkState (revealed s) (clickCount s) (step s)
        (username s) (password s) (pin s) (securityCode s) (hasPin s)
        (hasCode s) (error s) (loading s) x) p
  | Post path body =>
      mkPage (ui p) (auth p) (posts p ++ [(path, body)]) (location p)
             (href p)
  | SetSuperAuth a tok rt =>
      mkPage (ui p) (setSuperAuth a tok rt (auth p)) (posts p) (location p)
             (href p)
  | Navigate path =>
      mkPage (ui p) (auth p) (posts p) (Some path) (href p)
  | ResponseError e => intercept e p
  end.

(** The pages seen after each statement of a handler, in order. *)
Fixpoint trace (p : Page) (effs : list Effect) : list Page :=
  match effs with
  | [] => []
  | eff :: rest => let p' := apply p eff in p' :: trace p' rest
  end.

Definition exec (p : Page) (effs : list Effect) : Page :=
  fold_left apply effs p.

(** [doFinalLogin(p, sc)], given the outcome of its [verify-step4] call.
    The handlers read [username], [password], [pin], [hasCode] from the
    render they were created in, here [s]. *)
Definition doFinalLogin (s : State) (p sc : string) (r4 : Reply Step4Data)
  : list Effect :=
  Post "/auth/verify-step4"
       [("username", username s); ("password", password s);
        ("pin", or_default (Some p) "000000");
        ("security_code", or_default (Some sc) "default")]
  :: match r4 with
     | Ok d => [SetSuperAuth (admin d) (access_token d) (refresh_token d);
                Navigate "/s-panel/dashboard"]
     | Err e => [ResponseError e; SetError (or_default (detail e) "Xatolik")]
     end.

Definition handleStep2 (s : State) (r2 : Reply Step2Data)
  (r4 : Reply Step4Data) : list Effect :=
  if String.eqb (password s) "" then []
  else
    [SetLoading true; SetError "";
     Post "/auth/verify-step2"
          [("username", username s); ("password", password s)]]
    ++ match r2 with
       | Ok d =>
           [SetHasPin (has_pin d); SetHasCode (has_code d)]
           ++ (if negb (has_pin d) && negb (has_code d) then
                 (* no PIN or code set: skip to final *)
                 doFinalLogin s "" "" r4
               else if negb (has_pin d) then
                 [SetStep 4] (* skip PIN, go to code *)
               else [SetStep 3])
       | Err e =>
           ResponseError e
           :: (if bool_decide (status e = Some 423%Z)
               then [SetLockMsg (detail e)]
               else [SetError (or_default (detail e) "Xatolik")])
       end
    ++ [SetLoading false].

Definition handleStep3 (s : State) (r3 : Reply unit) (r4 : Reply Step4Data)
  : list Effect :=
  if String.eqb (pin s) "" || Nat.ltb (String.length (pin s)) 4
  then [SetError "PIN kiriting"]
  else
    [SetLoading true; SetError "";
     Post "/auth/verify-step3"
          [("username", username s); ("password", password s);
           ("pin", pin s)]]
    ++ match r3 with
       | Ok _ =>
           if negb (hasCode s) then doFinalLogin s (pin s) "" r4
           else [SetStep 4]
       | Err e => [ResponseError e; SetError (or_default (detail e) "Xatolik")]
       end
    ++ [SetLoading false].

Definition handleStep4 (s : State) (r4 : Reply Step4Data) : list Effect :=
  if String.eqb (securityCode s) "" then []
  else
    [SetLoading true; SetError ""]
    ++ doFinalLogin s (pin s) (securityCode s) r4
    ++ [SetLoading false].

(** The back buttons of steps 2, 3 and 4. *)
Definition back (s : State) : list Effect :=
  match step s with
  | 2 => [SetStep 1; SetPassword ""; SetError ""]
  | 3 => [SetStep 2; SetPin ""; SetError ""]
  | 4 => [SetStep (if hasPin s then 3 else 2); SetSecurityCode "";
          SetError ""]
  | _ => []
  end.

(** The steps shown while a handler runs from page [p]. *)
Definition steps_visited (p : Page) (effs : list Effect) : list nat :=
  map (fun q => step (ui q)) (trace p effs).

End SuperLogin.

(** ** Tenant route guard and payment poll ([TenantProtectedRoute]) *)

Module Gate.

(** The two [useState] cells of the guard. *)
Record State := mkState {
  paymentBlock : bool;
  paymentMsg : string
}.

Definition initial : State := mkState false "".

(** Body of [GET /api/v1/tenant/{slug}/info] ([TenantPublicInfo]). *)
Record TenantInfo := mkInfo {
  name : string;
  slug : string;
  logo_url : option string;
  payment_required : option bool;
  payment_message : option string
}.

(** [`${s}`] for [s : string | undefined]. *)
Definition interp_undef (s : option string) : string :=
  match s with
  | Some x => x
  | None => "undefined"
  end.

(** [user.payment_required !== b] with [user.payment_required] of type
    [boolean | undefined]. *)
Definition differs (a : option bool) (b : bool) : bool :=
  match a with
  | Some x => negb (Bool.eqb x b)
  | None => true
  end.

(** One run of [checkTenantStatus].  [urlSlug] and [captured] are the
    route parameter and the store's [user] of the render in which the
    callback was created (its dependency list is [[urlSlug]]); [reply] is
    the outcome of the awaited [axios.get], [None] when it throws. *)
Definition checkTenantStatus (urlSlug : option string)
  (captured : option User.t) (reply : option TenantInfo)
  (g : State) (s : AuthState) : State * AuthState :=
  if negb (truthy urlSlug) then (g, s)
  else
    match reply with
    | Some d =>
        let required := to_bool (payment_required d) in
        let msg := or_default (payment_message d) "" in
        let g' := mkState required msg in
        (* sync to store *)
        match captured with
        | Some u =>
            if differs (User.payment_required u) required
            then (g', setUser (User.with_payment u required msg) s)
            else (g', s)
        | None => (g', s)
        end
    | None => (g, s) (* ignore *)
    end.

(** Successive polls, oldest reply first. *)
Fixpoint polls (urlSlug : option string) (captured : option User.t)
  (replies : list (option TenantInfo)) (g : State) (s : AuthState)
  : list (State * AuthState) :=
  match replies with
  | [] => []
  | r :: rest =>
      let '(g', s') := checkTenantStatus urlSlug captured r g s in
      (g', s') :: polls urlSlug captured rest g' s'
  end.

Inductive View :=
| Spinner
| RedirectTo (path : string)
| Overlay (message : string)
| Children.

Definition default_message : string :=
  "Dasturdan foydalanish uchun iltimos to'lovni amalga oshiring. Administrator bilan bog'laning.".

(** What the guard renders. *)
Definition render (urlSlug : option string) (g : State) (s : AuthState)
  : View :=
  if negb (_hasHydrated s) then Spinner
  else if negb (isAuthenticated s)
          || negb (strict_eq_null_undef (tenantSlug s) urlSlug)
  then RedirectTo ("/" +:+ interp_undef urlSlug +:+ "/login")
  else if paymentBlock g
  then Overlay (or_default (Some (paymentMsg g)) default_message)
  else Children.

(** The overlay's logout button. *)
Definition overlay_logout (urlSlug : option string) (w : World) : World :=
  mkWorld (logout (store w))
          (Some ("/" +:+ interp_undef urlSlug +:+ "/login")) (net w).

(** Everything in the store except the [user] record. *)
Definition session_of (s : AuthState) :=
  (token s, refreshToken s, tenantSlug s, isAuthenticated s,
   superAdmin s, superToken s, superRefreshToken s, isSuperAdmin s,
   _hasHydrated s).


End Gate.

(** ** Sample data *)

Definition sample_admin : SuperAdmin.t :=
  SuperAdmin.mk 1 "root" None "Root" "Admin".

Definition sample_user : User.t :=
  User.mk 7 "ali" None "Ali" "Valiyev" None None 2 "Sotuvchi" "seller"
          (Some ["sales.view"; "sales.create"]) 10 None None None (Some 3%Z)
          (Some "Acme") (Some "acme") None (Some false) None None.

Definition director_user : User.t :=
  User.mk 1 "boss" None "Katta" "Rahbar" None None 1 "Direktor" "director"
          (Some []) 100 None None None None None None None None None None.

Definition get_products : RequestConfig :=
  api_request (setAuth sample_user "T1" "R1" "acme" initialState)
              (call_config api "get" "/products" None).


Definition unauthorized (c : RequestConfig) : AxiosError :=
  mkError (Some 401%Z) (Some c).

Definition acme_world : World :=
  mkWorld (setAuth sample_user "T1" "R1" "acme" initialState) None [].

Definition acme_loop : Loop := mkLoop acme_world ∅ ∅.

Definition acme_store : AuthState :=
  setAuth sample_user "T1" "R1" "acme" (setHasHydrated true initialState).

Definition acme_info (required : bool) (message : option string)
  : Gate.TenantInfo :=
  Gate.mkInfo "Acme" "acme" None (Some required) message.

Definition password_page : SuperLogin.Page :=
  SuperLogin.mkPage
    (SuperLogin.mkState true 0 2 "root" "s3cret" "" "" true true "" false
                        (Some ""))
    initialState [] None None.

(** A tenant session whose refresh token is the empty string. *)
Definition no_refresh_world : World :=
  mkWorld (setAuth sample_user "T1" "" "acme" initialState) None [].

(** A persisted store with tokens but a null slug. *)
Definition slugless_world : World :=
  mkWorld (mkAuthState (Some sample_user) (Some "T1") (Some "R1") None true
                       None None None false true)
          None [].

(** ** Batches of failed requests *)



(** ** Sequences of store actions *)

(** One call of a store action, as any component may make it. *)
Inductive StoreAction :=
| DoSetAuth (u : User.t) (tok rt slug : string)
| DoSetToken (tok : string)
| DoSetUser (u : User.t)
| DoLogout
| DoSetSuperAuth (a : SuperAdmin.t) (tok rt : string)
| DoSuperLogout
| DoSetHasHydrated (b : bool).

Definition act (s : AuthState) (a : StoreAction) : AuthState :=
  match a with
  | DoSetAuth u tok rt slug => setAuth u tok rt slug s
  | DoSetToken tok => setToken tok s
  | DoSetUser u => setUser u s
  | DoLogout => logout s
  | DoSetSuperAuth a tok rt => setSuperAuth a tok rt s
  | DoSuperLogout => superLogout s
  | DoSetHasHydrated b => setHasHydrated b s
  end.

Definition run_actions (s : AuthState) (acts : list StoreAction) : AuthState :=
  fold_left act acts s.

Definition is_setToken (a : StoreAction) : bool :=
  match a with
  | DoSetToken _ => true
  | _ => false
  end.

(** How the two session flags relate to the nullable fields. *)
Definition flags_consistent (s : AuthState) : Prop :=
  (isAuthenticated s = true <-> refreshToken s <> None) /\
  (isAuthenticated s = true <-> tenantSlug s <> None) /\
  (isAuthenticated s = true -> token s <> None /\ user s <> None) /\
  (isSuperAdmin s = true <-> superToken s <> None) /\
  (isSuperAdmin s = true <-> superRefreshToken s <> None) /\
  (isSuperAdmin s = true <-> superAdmin s <> None) /\
  ~ (isAuthenticated s = true /\ isSuperAdmin s = true).

(** ** Projections used to state frame properties *)

Definition operator_part (s : AuthState) :=
  (superAdmin s, superToken s, superRefreshToken s, isSuperAdmin s).

Definition tenant_part (s : AuthState) :=
  (user s, token s, refreshToken s, tenantSlug s, isAuthenticated s).

Definition is_fails (ev : Event) : bool :=
  match ev with
  | Fails _ _ => true
  | RefreshReturns _ _ => false
  end.




(** ** Operator login page: the rest of the page *)

Module SuperLoginFlow.
Import SuperLogin.

(** [handleStep1], given the outcome of its [verify-step1] call.  [trim]
    stands for [String.prototype.trim]. *)
Definition handleStep1 (trim : string -> string) (s : State)
  (r1 : Reply unit) : list Effect :=
  if String.eqb (trim (username s)) "" then []
  else
    [SetLoading true; SetError ""; SetLockMsg (Some "");
     Post "/auth/verify-step1" [("username", username s)]]
    ++ match r1 with
       | Ok _ => [SetStep 2]
       | Err e =>
           let msg := or_default (detail e) "Xatolik" in
           ResponseError e
           :: (if bool_decide (status e = Some 423%Z)
               then [SetLockMsg (Some msg)]
               else if bool_decide (status e = Some 429%Z)
               then [SetLockMsg (Some msg)]
               else [SetError msg])
       end
    ++ [SetLoading false].

Definition set_username (x : string) (s : State) : State :=
  mkState (revealed s) (clickCount s) (step s) x (password s) (pin s)
          (securityCode s) (hasPin s) (hasCode s) (error s) (loading s)
          (lockMsg s).

Definition set_clicks (n : nat) (rev : bool) (s : State) : State :=
  mkState rev n (step s) (username s) (password s) (pin s)
          (securityCode s) (hasPin s) (hasCode s) (error s) (loading s)
          (lockMsg s).

(** *** The handlers cut at their awaits

    While a request is in flight the inputs, the Enter key and the back
    button stay usable, so other events run between the two halves of a
    handler.  The second half still reads [username], [password], [pin]
    and [hasCode] from the render the handler was created in. *)

(** A handler suspended at its [await], with the cells of the render it
    was created in.  [AwaitFinal] is [doFinalLogin] waiting for
    [verify-step4]; whichever handler called it only clears [loading]
    afterwards. *)
Inductive Awaiting :=
| AwaitStep1 (s : State)
| AwaitStep2 (s : State)
| AwaitStep3 (s : State)
| AwaitFinal (s : State).

(** [doFinalLogin(p, sc)] up to its [await]. *)
Definition beginFinal (s : State) (p sc : string) : list Effect :=
  [Post "/auth/verify-step4"
        [("username", username s); ("password", password s);
         ("pin", or_default (Some p) "000000");
         ("security_code", or_default (Some sc) "default")]].

(** [doFinalLogin] from the answer on, followed by its caller's
    [setLoading(false)]. *)
Definition resumeFinal (r4 : Reply Step4Data) : list Effect :=
  match r4 with
  | Ok d => [SetSuperAuth (admin d) (access_token d) (refresh_token d);
             Navigate "/s-panel/dashboard"]
  | Err e => [ResponseError e; SetError (or_default (detail e) "Xatolik")]
  end
  ++ [SetLoading false].

(** Each handler up to its first [await]: what it does, and what it is
    left waiting for, if it got past its guard. *)
Definition begin1 (trim : string -> string) (s : State)
  : list Effect * option Awaiting :=
  if String.eqb (trim (username s)) "" then ([], None)
  else ([SetLoading true; SetError ""; SetLockMsg (Some "");
         Post "/auth/verify-step1" [("username", username s)]],
        Some (AwaitStep1 s)).

Definition begin2 (s : State) : list Effect * option Awaiting :=
  if String.eqb (password s) "" then ([], None)
  else ([SetLoading true; SetError "";
         Post "/auth/verify-step2"
              [("username", username s); ("password", password s)]],
        Some (AwaitStep2 s)).

Definition begin3 (s : State) : list Effect * option Awaiting :=
  if String.eqb (pin s) "" || Nat.ltb (String.length (pin s)) 4
  then ([SetError "PIN kiriting"], None)
  else ([SetLoading true; SetError "";
         Post "/auth/verify-step3"
              [("username", username s); ("password", password s);
               ("pin", pin s)]],
        Some (AwaitStep3 s)).

Definition begin4 (s : State) : list Effect * option Awaiting :=
  if String.eqb (securityCode s) "" then ([], None)
  else ([SetLoading true; SetError ""]
        ++ beginFinal s (pin s) (securityCode s),
        Some (AwaitFinal s)).

(** Each handler from the answer to its request on: what it does, and
    what it is left waiting for when it goes on to [doFinalLogin]. *)
Definition resume1 (r1 : Reply unit) : list Effect :=
  match r1 with
  | Ok _ => [SetStep 2]
  | Err e =>
      let msg := or_default (detail e) "Xatolik" in
      ResponseError e
      :: (if bool_decide (status e = Some 423%Z)
          then [SetLockMsg (Some msg)]
          else if bool_decide (status e = Some 429%Z)
          then [SetLockMsg (Some msg)]
          else [SetError msg])
  end
  ++ [SetLoading false].

Definition resume2 (s : State) (r2 : Reply Step2Data)
  : list Effect * option Awaiting :=
  match r2 with
  | Ok d =>
      if negb (has_pin d) && negb (has_code d) then
        ([SetHasPin (has_pin d); SetHasCode (has_code d)]
         ++ beginFinal s "" "",
         Some (AwaitFinal s))
      else
        ([SetHasPin (has_pin d); SetHasCode (has_code d)]
         ++ (if negb (has_pin d) then [SetStep 4] else [SetStep 3])
         ++ [SetLoading false],
         None)
  | Err e =>
      (ResponseError e
       :: (if bool_decide (status e = Some 423%Z)
           then [SetLockMsg (detail e)]
           else [SetError (or_default (detail e) "Xatolik")])
       ++ [SetLoading false],
       None)
  end.

Definition resume3 (s : State) (r3 : Reply unit)
  : list Effect * option Awaiting :=
  match r3 with
  | Ok _ =>
      if negb (hasCode s) then (beginFinal s (pin s) "", Some (AwaitFinal s))
      else ([SetStep 4; SetLoading false], None)
  | Err e =>
      ([ResponseError e; SetError (or_default (detail e) "Xatolik");
        SetLoading false],
       None)
  end.

(** The page, the number of pending
    [setTimeout(() => setClickCount(0), 3000)] timers, and the handlers
    suspended on a request, oldest first. *)
Record Lobby := mkLobby {
  page : Page;
  resets : nat;
  inflight : list Awaiting
}.

(** [handleSecretClick]: the updater given to [setClickCount]. *)
Definition handleSecretClick (l : Lobby) : Lobby :=
  let next := clickCount (ui (page l)) + 1 in
  if Nat.leb 5 next then
    mkLobby (set_ui (set_clicks 0 true) (page l)) (resets l) (inflight l)
  else
    (* reset after 3 seconds *)
    mkLobby (set_ui (set_clicks next (revealed (ui (page l)))) (page l))
            (S (resets l)) (inflight l).

(** What can happen to the page: a click on the icon of the decoy page,
    one of the reset timers firing, typing into the input of the current
    step, submitting the current step (the handler runs up to its
    request), the back button, and the answer to one of the requests in
    flight, in any order (the suspended handler runs on from there). *)
Inductive UserAction :=
| SecretClick
| ResetFires
| TypeUsername (x : string)
| TypePassword (x : string)
| TypePin (x : string)
| TypeCode (x : string)
| Submit1
| Submit2
| Submit3
| Submit4
| Back
| Answer1 (i : nat) (r1 : Reply unit)
| Answer2 (i : nat) (r2 : Reply Step2Data)
| Answer3 (i : nat) (r3 : Reply unit)
| Answer4 (i : nat) (r4 : Reply Step4Data).

Definition on_page (f : Page -> Page) (l : Lobby) : Lobby :=
  mkLobby (f (page l)) (resets l) (inflight l).

(** A handler starts: it runs to its request and is left suspended. *)
Definition start (b : list Effect * option Awaiting) (l : Lobby) : Lobby :=
  mkLobby (exec (page l) b.1) (resets l) (inflight l ++ option_list b.2).

(** The [i]-th suspended handler runs on. *)
Definition finish (i : nat) (b : list Effect * option Awaiting) (l : Lobby)
  : Lobby :=
  mkLobby (exec (page l) b.1) (resets l)
          (delete i (inflight l) ++ option_list b.2).

(** The page renders nothing once [isSuperAdmin] holds, the decoy page
    with the icon while [revealed] is false, and otherwise the input and
    buttons of the current step only.  Timers and answers arrive whatever
    is rendered. *)
Definition perform (trim : string -> string) (l : Lobby) (a : UserAction)
  : Lobby :=
  let p := page l in
  let s := ui p in
  match a with
  | ResetFires =>
      match resets l with
      | 0 => l
      | S n => mkLobby (set_ui (set_clicks 0 (revealed s)) p) n (inflight l)
      end
  | Answer1 i r1 =>
      match inflight l !! i with
      | Some (AwaitStep1 _) => finish i (resume1 r1, None) l
      | _ => l
      end
  | Answer2 i r2 =>
      match inflight l !! i with
      | Some (AwaitStep2 s0) => finish i (resume2 s0 r2) l
      | _ => l
      end
  | Answer3 i r3 =>
      match inflight l !! i with
      | Some (AwaitStep3 s0) => finish i (resume3 s0 r3) l
      | _ => l
      end
  | Answer4 i r4 =>
      match inflight l !! i with
      | Some (AwaitFinal _) => finish i (resumeFinal r4, None) l
      | _ => l
      end
  | _ =>
      if isSuperAdmin (auth p) then l
      else if negb (revealed s) then
        match a with
        | SecretClick => handleSecretClick l
        | _ => l
        end
      else
        match a, step s with
        | TypeUsername x, 1 => on_page (set_ui (set_username x)) l
        | Submit1, 1 => start (begin1 trim s) l
        | TypePassword x, 2 => on_page (fun p => apply p (SetPassword x)) l
        | Submit2, 2 => start (begin2 s) l
        | TypePin x, 3 => on_page (fun p => apply p (SetPin x)) l
        | Submit3, 3 => start (begin3 s) l
        | TypeCode x, 4 => on_page (fun p => apply p (SetSecurityCode x)) l
        | Submit4, 4 => start (begin4 s) l
        | Back, _ => on_page (fun p => exec p (back s)) l
        | _, _ => l
        end
  end.

Definition session (trim : string -> string) (l : Lobby)
  (acts : list UserAction) : Lobby :=
  fold_left (perform trim) acts l.

(** The page as first rendered over a given store. *)
Definition fresh (st : AuthState) : Lobby :=
  mkLobby (mkPage initial st [] None None) 0 [].

Definition is_click (a : UserAction) : bool :=
  match a with
  | SecretClick => true
  | _ => false
  end.

(** A request the page may send: the four verification requests, each
    with the fields it is given and what its guard ensures. *)
Definition post_ok (trim : string -> string)
  (x : string * list (string * string)) : Prop :=
  (exists u, x = ("/auth/verify-step1", [("username", u)]) /\ trim u <> "") \/
  (exists u pw,
      x = ("/auth/verify-step2", [("username", u); ("password", pw)]) /\
      pw <> "") \/
  (exists u pw pn,
      x = ("/auth/verify-step3",
           [("username", u); ("password", pw); ("pin", pn)]) /\
      (4 <= String.length pn)%nat) \/
  (exists u pw pn sc,
      x = ("/auth/verify-step4",
           [("username", u); ("password", pw); ("pin", pn);
            ("security_code", sc)]) /\
      pn <> "" /\ sc <> "").

(** The request a suspended handler waits on, up to the fields that its
    render did not fix. *)
Definition awaited (aw : Awaiting) (x : string * list (string * string))
  : Prop :=
  match aw with
  | AwaitStep1 s => x = ("/auth/verify-step1", [("username", username s)])
  | AwaitStep2 s =>
      x = ("/auth/verify-step2",
           [("username", username s); ("password", password s)])
  | AwaitStep3 s =>
      x = ("/auth/verify-step3",
           [("username", username s); ("password", password s);
            ("pin", pin s)])
  | AwaitFinal s =>
      exists pn sc,
        x = ("/auth/verify-step4",
             [("username", username s); ("password", password s);
              ("pin", pn); ("security_code", sc)])
  end.

(** What holds of the page at every moment. *)
Definition well_formed (trim : string -> string) (l : Lobby) : Prop :=
  let s := ui (page l) in
  (step s = 1 \/ step s = 2 \/ step s = 3 \/ step s = 4) /\
  (clickCount s <= 4)%nat /\
  (revealed s = false ->
   step s = 1 /\ posts (page l) = [] /\ inflight l = []) /\
  Forall (post_ok trim) (posts (page l)) /\
  Forall (fun aw => exists x, x ∈ posts (page l) /\ awaited aw x)
         (inflight l).

(** What every half of a handler respects on any page: it keeps the step
    within 1 to 4, leaves the click counter and the reveal alone, only
    adds well-formed requests, and is left waiting only on a request it
    has just sent. *)
Definition sound (trim : string -> string) (p : Page)
  (b : list Effect * option Awaiting) : Prop :=
  let p' := exec p b.1 in
  (step (ui p) = 1 \/ step (ui p) = 2 \/ step (ui p) = 3 \/ step (ui p) = 4 ->
   step (ui p') = 1 \/ step (ui p') = 2 \/ step (ui p') = 3 \/
   step (ui p') = 4) /\
  clickCount (ui p') = clickCount (ui p) /\
  revealed (ui p') = revealed (ui p) /\
  exists new,
    posts p' = posts p ++ new /\ Forall (post_ok trim) new /\
    forall aw, b.2 = Some aw -> exists x, x ∈ new /\ awaited aw x.

(** The suspended handler that an event resumes: the event is the answer
    to a request in flight, of the kind that handler waits for. *)
Definition answered (l : Lobby) (a : UserAction) : option Awaiting :=
  match a with
  | Answer1 i _ =>
      match inflight l !! i with
      | Some (AwaitStep1 s) => Some (AwaitStep1 s)
      | _ => None
      end
  | Answer2 i _ =>
      match inflight l !! i with
      | Some (AwaitStep2 s) => Some (AwaitStep2 s)
      | _ => None
      end
  | Answer3 i _ =>
      match inflight l !! i with
      | Some (AwaitStep3 s) => Some (AwaitStep3 s)
      | _ => None
      end
  | Answer4 i _ =>
      match inflight l !! i with
      | Some (AwaitFinal s) => Some (AwaitFinal s)
      | _ => None
      end
  | _ => None
  end.

(** Whether an event is the answer to a request, and the error it
    carries when it is a failure. *)
Definition answer_error (a : UserAction) : option ErrorResponse :=
  match a with
  | Answer1 _ (Err e) | Answer2 _ (Err e) | Answer3 _ (Err e)
  | Answer4 _ (Err e) => Some e
  | _ => None
  end.

End SuperLoginFlow.



(** ** Route guards and the tenant login page *)

Module Routes.
Import Gate.

(** [SuperProtectedRoute]. *)
Definition renderSuper (s : AuthState) : View :=
  if negb (_hasHydrated s) then Spinner
  else if negb (isSuperAdmin s) then RedirectTo "/s-panel/access"
  else Children.

(** The successful replies among the outcomes of successive polls. *)
Definition answers (replies : list (option TenantInfo)) : list TenantInfo :=
  omap (fun r => r) replies.

(** The guard state that a reply dictates. *)
Definition gate_of (d : TenantInfo) : State :=
  mkState (to_bool (payment_required d)) (or_default (payment_message d) "").

(** The guard and the store after a series of polls. *)
Definition after_polls (urlSlug : option string) (captured : option User.t)
  (replies : list (option TenantInfo)) (g : State) (s : AuthState)
  : State * AuthState :=
  List.last (polls urlSlug captured replies g s) (g, s).

End Routes.

Module TenantLogin.

(** The [useState] cells of the login page ([pages/Login.tsx]). *)
Record State := mkState {
  tenantInfo : option Gate.TenantInfo;
  tenantLoading : bool;
  tenantNotFound : bool;
  username : string;
  password : string;
  showPassword : bool;
  isLoading : bool;
  error : string
}.

Definition initial : State :=
  mkState None true false "" "" false false "".

(** What [handleLogin] reads of a successful [AuthResponse]:
    [data.user], [data.tokens.access_token], [data.tokens.refresh_token]. *)
Record AuthResponse := mkAuthResponse {
  user : User.t;
  access_token : string;
  refresh_token : string
}.

(** Outcome of the awaited [axios.post(.../auth/login)]; for a failure,
    [err.response?.data?.detail] when it is a string. *)
Inductive LoginReply :=
| LoginOk (d : AuthResponse)
| LoginFailed (detail : option string).

Record Page := mkPage {
  ui : State;
  auth : AuthState;
  sent : list (string * list (string * string));
  location : option string
}.

Definition set_status (err : string) (busy : bool) (s : State) : State :=
  mkState (tenantInfo s) (tenantLoading s) (tenantNotFound s) (username s)
          (password s) (showPassword s) busy err.

Definition set_busy (busy : bool) (s : State) : State :=
  set_status (error s) busy s.

(** [handleLogin], for the route parameter [tenantSlug], here [urlSlug], and the outcome of
    its request. *)
Definition handleLogin (urlSlug : option string) (r : LoginReply)
  (p : Page) : Page :=
  if negb (truthy urlSlug) then p
  else
    let slug := Gate.interp_undef urlSlug in
    let s := ui p in
    let request :=
      ("/api/v1/" +:+ slug +:+ "/auth/login",
       [("username", username s); ("password", password s)]) in
    match r with
    | LoginOk d =>
        mkPage (set_busy false (set_status "" true s))
               (setAuth (user d) (access_token d) (refresh_token d) slug
                        (auth p))
               (sent p ++ [request])
               (Some ("/" +:+ slug))
    | LoginFailed detail =>
        mkPage (set_busy false
                  (set_status (match detail with
                               | Some x => x
                               | None => "Login xatolik yuz berdi"
                               end) true s))
               (auth p) (sent p ++ [request]) (location p)
    end.

(** The effect that leaves the login page when the visitor is already
    authenticated for this tenant. *)
Definition redirectIfAuthenticated (urlSlug : option string) (p : Page)
  : Page :=
  if isAuthenticated (auth p)
     && strict_eq_null_undef (tenantSlug (auth p)) urlSlug
  then mkPage (ui p) (auth p) (sent p)
              (Some ("/" +:+ Gate.interp_undef urlSlug))
  else p.

End TenantLogin.



(** ** Session idle monitor ([frontend/src/hooks/useSessionTimeout.ts]) *)

Module SessionTimeout.

(** 30 minutes, in milliseconds. *)
Definition SESSION_TIMEOUT_MS : N := 30 * 60 * 1000.

Definition EVENTS : list string :=
  ["mousedown"; "mousemove"; "keydown"; "scroll"; "touchstart"; "click"].

(** The [mode] parameter: ['tenant' | 'super']. *)
Inductive Mode :=
| tenant
| super.

Definition doLogout (mode : Mode) (w : World) : World :=
  match mode with
  | super =>
      mkWorld (superLogout (store w)) (Some "/s-panel/access") (net w)
  | tenant =>
      let slug := tenantSlug (store w) in
      mkWorld (logout (store w))
              (Some (if truthy slug then "/" +:+ interp slug +:+ "/login"
                     else "/"))
              (net w)
  end.

(** The hook inside its browser: the clock, the pending timeouts (each
    one runs [doLogout]) with their identifier and due time, the counter
    that numbers them from 1, [timerRef.current], the event names that the
    hook's handler is attached to, whether the effect is set up, and the
    page it acts on. *)
Record Hook := mkHook {
  now : N;
  timers : list (nat * N);
  next_timer : nat;
  timerRef : option nat;
  listeners : list string;
  mounted : bool;
  page : World
}.

Definition start (w : World) : Hook := mkHook 0 [] 1 None [] false w.

(** [clearTimeout(id)]. *)
Definition clearTimeout (id : nat) (ts : list (nat * N)) : list (nat * N) :=
  filter (fun x => x.1 <> id) ts.

Definition resetTimer (h : Hook) : Hook :=
  let ts :=
    match timerRef h with
    | Some id => clearTimeout id (timers h)
    | None => timers h
    end in
  mkHook (now h)
         ((next_timer h, (now h + SESSION_TIMEOUT_MS)%N) :: ts)
         (S (next_timer h)) (Some (next_timer h))
         (listeners h) (mounted h) (page h).

(** The effect: start the timer, attach the handler to every event. *)
Definition mount (h : Hook) : Hook :=
  let h' := resetTimer h in
  mkHook (now h') (timers h') (next_timer h') (timerRef h')
         (listeners h' ++ EVENTS) true (page h').

(** Its cleanup. *)
Definition unmount (h : Hook) : Hook :=
  let ts :=
    match timerRef h with
    | Some id => clearTimeout id (timers h)
    | None => timers h
    end in
  mkHook (now h) ts (next_timer h) (timerRef h)
         (filter (fun e => e ∉ EVENTS) (listeners h)) false (page h).

(** A DOM event of the given name reaches the window. *)
Definition dispatch (name : string) (h : Hook) : Hook :=
  if bool_decide (name ∈ listeners h) then resetTimer h else h.

(** The clock advances by [dt]; the timeouts that are due run. *)
Definition wait (mode : Mode) (dt : N) (h : Hook) : Hook :=
  let t := (now h + dt)%N in
  let due := filter (fun x => (x.2 <= t)%N) (timers h) in
  mkHook t (filter (fun x => (t < x.2)%N) (timers h))
         (next_timer h) (timerRef h) (listeners h) (mounted h)
         (fold_left (fun w _ => doLogout mode w) due (page h)).

(** React sets an effect up only when it is not set up, and cleans up only
    what is set up. *)
Inductive Ev :=
| Mount
| Unmount
| Dispatch (name : string)
| Wait (dt : N).

Definition handle (mode : Mode) (h : Hook) (ev : Ev) : Hook :=
  match ev with
  | Mount => if mounted h then h else mount h
  | Unmount => if mounted h then unmount h else h
  | Dispatch name => dispatch name h
  | Wait dt => wait mode dt h
  end.

Definition run (mode : Mode) (h : Hook) (evs : list Ev) : Hook :=
  fold_left (handle mode) evs h.

(** Events that are no activity for the hook: time passing, and DOM events
    outside [EVENTS]. *)
Definition quiet (ev : Ev) : Prop :=
  match ev with
  | Wait _ => True
  | Dispatch name => name ∉ EVENTS
  | Mount | Unmount => False
  end.

Definition elapsed (evs : list Ev) : N :=
  fold_right (fun ev acc => match ev with Wait dt => (dt + acc)%N | _ => acc end)
             0%N evs.

Definition no_mount (ev : Ev) : Prop :=
  match ev with
  | Mount => False
  | _ => True
  end.

(** What holds of the hook at every moment. *)
Definition tidy (h : Hook) : Prop :=
  (length (timers h) <= 1)%nat /\
  (forall x, x ∈ timers h ->
     timerRef h = Some x.1 /\ (now h < x.2)%N /\
     (x.2 <= now h + SESSION_TIMEOUT_MS)%N) /\
  (mounted h = true -> listeners h = EVENTS) /\
  (mounted h = false -> listeners h = [] /\ timers h = []).

(** The events of a visitor who keeps being active: each wait is followed
    by a DOM event. *)
Definition activity (gaps : list (N * string)) : list Ev :=
  flat_map (fun x => [Wait x.1; Dispatch x.2]) gaps.

(** A visitor is active when each of their waits is shorter than the
    timeout and each of their DOM events is one the hook listens to. *)
Definition active (x : N * string) : Prop :=
  (x.1 < SESSION_TIMEOUT_MS)%N /\ x.2 ∈ EVENTS.

End SessionTimeout.



(** ** Operator security settings ([pages/super/SecuritySettings]) *)

Module SecuritySettings.

(** The form cells of the page and its status message
    ([{ ok, text } | null]). *)
Record State := mkState {
  currentPassword : string;
  newPin : string;
  newCode : string;
  newPassword : string;
  saving : bool;
  loading : bool;
  msg : option (bool * string)
}.

(** The page, the requests it has sent through [superApi], oldest
    first (method, path and, for a post, the body as built), and what the
    response interceptor of [superApi] acts on: the store and
    [window.location.href]. *)
Record Page := mkPage {
  ui : State;
  sent : list (string * string * list (string * string));
  auth : AuthState;
  href : option string
}.

Definition set_ui (f : State -> State) (p : Page) : Page :=
  mkPage (f (ui p)) (sent p) (auth p) (href p).

Definition set_msg (m : option (bool * string)) (s : State) : State :=
  mkState (currentPassword s) (newPin s) (newCode s) (newPassword s)
          (saving s) (loading s) m.

Definition set_saving (b : bool) (s : State) : State :=
  mkState (currentPassword s) (newPin s) (newCode s) (newPassword s)
          b (loading s) (msg s).

Definition set_loading (b : bool) (s : State) : State :=
  mkState (currentPassword s) (newPin s) (newCode s) (newPassword s)
          (saving s) b (msg s).

(** [setCurrentPassword(''); setNewPin(''); setNewCode('')] *)
Definition clear_form (s : State) : State :=
  mkState "" "" "" (newPassword s) (saving s) (loading s) (msg s).

(** [load()], up to its [await]: the two requests go out together. *)
Definition load (p : Page) : Page :=
  mkPage (set_loading true (ui p))
         (sent p ++ [("get", "/auth/me", []); ("get", "/auth/login-logs", [])])
         (auth p) (href p).

(** [body] as [handleSave] builds it. *)
Definition save_body (s : State) : list (string * string) :=
  [("current_password", currentPassword s)]
  ++ (if String.eqb (newPin s) "" then [] else [("pin", newPin s)])
  ++ (if String.eqb (newCode s) "" then []
      else [("security_code", newCode s)]).

(** [handleSave] up to its [await]: the page it leaves, and whether the
    [setup-security] request went out. *)
Definition beginSave (p : Page) : Page * bool :=
  let s := ui p in
  if String.eqb (currentPassword s) "" then
    (set_ui (set_msg (Some (false, "Joriy parolni kiriting"))) p, false)
  else if String.eqb (newPin s) "" && String.eqb (newCode s) "" then
    (set_ui (set_msg (Some (false, "PIN yoki xavfsizlik kodini kiriting"))) p,
     false)
  else
    (mkPage (set_msg None (set_saving true s))
            (sent p ++ [("post", "/auth/setup-security", save_body s)])
            (auth p) (href p),
     true).

(** [handleSave] from the answer on, on the page as it is by then: the
    inputs stay usable while the request is in flight.  A failed response
    has gone through the response interceptor of [superApi] before the
    [catch] sees it. *)
Definition resumeSave (r : SuperLogin.Reply unit) (q : Page) : Page :=
  match r with
  | SuperLogin.Ok _ =>
      let q1 :=
        set_ui (fun s =>
                  clear_form
                    (set_msg (Some (true, "Xavfsizlik sozlamalari saqlandi ✓"))
                             s)) q in
      set_ui (set_saving false) (load q1)
  | SuperLogin.Err e =>
      let i := SuperLogin.intercepted e (auth q) (href q) in
      mkPage (set_saving false
                (set_msg (Some (false,
                                or_default (SuperLogin.detail e) "Xatolik"))
                         (ui q)))
             (sent q) i.1 i.2
  end.

(** [handleSave] when nothing else happens before the answer. *)
Definition handleSave (r : SuperLogin.Reply unit) (p : Page) : Page :=
  let b := beginSave p in
  if b.2 then resumeSave r b.1 else b.1.

End SecuritySettings.

(** * Properties *)

(** ** JavaScript helpers *)

Lemma truthy_Some_ne (s : string) : truthy (Some s) = true <-> s <> "".
Proof.
  unfold truthy. destruct (String.eqb_spec s ""); simpl; split; congruence.
Qed.


Lemma truthy_intro (s : string) : s <> "" -> truthy (Some s) = true.
Proof. apply truthy_Some_ne. Qed.

Lemma existsb_eqb_elem_of (p : string) (ps : list string) :
  existsb (String.eqb p) ps = true <-> p ∈ ps.
Proof.
  rewrite existsb_exists. split.
  - intros (q & Hin & Heq). apply String.eqb_eq in Heq. subst q.
    by apply list_elem_of_In.
  - intros Hin. exists p. split; [by apply list_elem_of_In|].
    apply String.eqb_refl.
Qed.

(** ** Credential store *)

Lemma setAuth_exclusive u tok rt slug s :
  domain_exclusive (setAuth u tok rt slug s).
Proof. intros [_ [H|H]]; simpl in H; congruence. Qed.

Lemma setSuperAuth_exclusive a tok rt s :
  domain_exclusive (setSuperAuth a tok rt s).
Proof. intros [[H|H] _]; simpl in H; congruence. Qed.

Lemma establish_exclusive c s : domain_exclusive (establish c s).
Proof.
  destruct c; [apply setAuth_exclusive | apply setSuperAuth_exclusive].
Qed.

Lemma states_after_exclusive cs :
  forall s, Forall domain_exclusive (states_after s cs).
Proof.
  induction cs as [|c cs IH]; intros s; simpl.
  - constructor.
  - constructor; [apply establish_exclusive | apply IH].
Qed.

Lemma states_after_length cs : forall s, length (states_after s cs) = length cs.
Proof. induction cs as [|c cs IH]; intros s; simpl; [done | by rewrite IH]. Qed.

(** C2.  Domain exclusivity: along every sequence of [setAuth] /
    [setSuperAuth] calls from the initial store there is one observed
    state per call, and in each of them at most one domain has a non-null
    token; [setAuth] nulls every operator field and [setSuperAuth] nulls
    every tenant field, whatever the store held before. *)
Theorem domain_exclusivity :
  forall cs : list EstablishCall,
    length (states_after initialState cs) = length cs /\
    Forall domain_exclusive (states_after initialState cs) /\
    (forall s u tok rt slug,
        operator_fields_cleared (setAuth u tok rt slug s) /\
        token (setAuth u tok rt slug s) = Some tok /\
        refreshToken (setAuth u tok rt slug s) = Some rt) /\
    (forall s a tok rt,
        tenant_fields_cleared (setSuperAuth a tok rt s) /\
        superToken (setSuperAuth a tok rt s) = Some tok /\
        superRefreshToken (setSuperAuth a tok rt s) = Some rt).
Proof.
  intros cs. split; [apply states_after_length|].
  split; [apply states_after_exclusive|].
  split; intros; unfold operator_fields_cleared, tenant_fields_cleared;
    simpl; auto 10.
Qed.

(** C8, as stated, fails once the operator domain is the active one:
    [setToken] leaves the operator's access token as it was and writes the
    tenant field instead. *)
Lemma setToken_operator_active_counterexample :
  let s := setSuperAuth sample_admin "A1" "R1" initialState in
  isSuperAdmin s = true /\ isAuthenticated s = false /\
  superToken (setToken "T2" s) = Some "A1" /\
  token s = None /\ token (setToken "T2" s) = Some "T2".
Proof. repeat split. Qed.

(** C8, amended.  [setToken] replaces the tenant access token [token] and
    nothing else, in every store state: refresh token, user, tenant slug,
    the authentication flag, every operator field and the hydration flag
    keep their values. *)
Theorem setToken_frame :
  forall (tok : string) (s : AuthState),
    token (setToken tok s) = Some tok /\
    user (setToken tok s) = user s /\
    refreshToken (setToken tok s) = refreshToken s /\
    tenantSlug (setToken tok s) = tenantSlug s /\
    isAuthenticated (setToken tok s) = isAuthenticated s /\
    superAdmin (setToken tok s) = superAdmin s /\
    superToken (setToken tok s) = superToken s /\
    superRefreshToken (setToken tok s) = superRefreshToken s /\
    isSuperAdmin (setToken tok s) = isSuperAdmin s /\
    _hasHydrated (setToken tok s) = _hasHydrated s.
Proof. intros tok s. repeat split. Qed.

Example seller_permissions :
  let s := setAuth sample_user "T" "R" "acme" initialState in
  hasPermission "sales.create" s = true /\
  hasPermission "users.delete" s = false.
Proof. split; reflexivity. Qed.

(** C10.  [hasPermission p] is false without a stored user, true for a
    user whose [role_type] is ['director'] whatever the permission list,
    and otherwise true exactly when [p] occurs in the user's permission
    list, false when the list is absent. *)
Theorem hasPermission_spec :
  forall (p : string) (s : AuthState),
    (user s = None -> hasPermission p s = false) /\
    (forall u, user s = Some u -> User.role_type u = "director" ->
               hasPermission p s = true) /\
    (forall u, user s = Some u -> User.role_type u <> "director" ->
       (forall ps, User.permissions u = Some ps ->
                   (hasPermission p s = true <-> p ∈ ps)) /\
       (User.permissions u = None -> hasPermission p s = false)).
Proof.
  intros p s. unfold hasPermission. split; [|split].
  - intros ->. reflexivity.
  - intros u -> ->. reflexivity.
  - intros u -> Hrole.
    destruct (String.eqb_spec (User.role_type u) "director") as [E|_];
      [contradiction|].
    split.
    + intros ps ->. apply existsb_eqb_elem_of.
    + intros ->. reflexivity.
Qed.

Lemma hasPermission_spec_witness :
  hasPermission "users.delete" initialState = false /\
  hasPermission "users.delete"
    (setAuth director_user "T" "R" "acme" initialState) = true /\
  hasPermission "sales.view"
    (setAuth sample_user "T" "R" "acme" initialState) = true.
Proof.
  split; [|split].
  - apply (proj1 (hasPermission_spec "users.delete" initialState)).
    reflexivity.
  - apply (proj1 (proj2 (hasPermission_spec "users.delete"
             (setAuth director_user "T" "R" "acme" initialState)))
             director_user); reflexivity.
  - destruct (hasPermission_spec "sales.view"
                (setAuth sample_user "T" "R" "acme" initialState))
      as (_ & _ & H).
    destruct (H sample_user eq_refl) as [Hin _]; [discriminate|].
    apply (Hin _ eq_refl). apply elem_of_cons. by left.
Defined.

(** ** Request gateway: partition routing *)

Lemma api_request_url store c : url (api_request store c) = url c.
Proof.
  unfold api_request.
  destruct (truthy (tenantSlug store) && tenant_scoped_url (url c)),
    (truthy (token store)); reflexivity.
Qed.

Lemma api_request_baseURL store c :
  baseURL (api_request store c) =
  if truthy (tenantSlug store) && tenant_scoped_url (url c)
  then Some ("/api/v1/" +:+ interp (tenantSlug store))
  else baseURL c.
Proof.
  unfold api_request.
  destruct (truthy (tenantSlug store) && tenant_scoped_url (url c)),
    (truthy (token store)); reflexivity.
Qed.

Lemma superApi_request_baseURL store c :
  baseURL (superApi_request store c) = baseURL c.
Proof.
  unfold superApi_request. destruct (truthy (superToken store)); reflexivity.
Qed.

Lemma tenant_scoped_operator_path u :
  startsWith u "/api/v1/super" = true -> tenant_scoped_url (Some u) = false.
Proof.
  intros H. unfold tenant_scoped_url. rewrite H. simpl. apply andb_false_r.
Qed.

Example get_products_routed :
  baseURL get_products = Some "/api/v1/acme" /\
  url get_products = Some "/products" /\
  headers get_products !! "Authorization" = Some "Bearer T1" /\
  headers get_products !! "Content-Type" = Some "application/json".
Proof. repeat split. Qed.

Example operator_call_routed :
  let c := superApi_request
             (setSuperAuth sample_admin "A1" "R1" initialState)
             (call_config superApi "get" "/tenants" None) in
  baseURL c = Some "/api/v1/super" /\
  headers c !! "Authorization" = Some "Bearer A1".
Proof. repeat split. Qed.

(** C5, as stated, fails in two places: with tenant [acme] active, a call
    with the empty path gets no base URL at all; and with no slug stored a
    tenant-instance call is not routed under ['/api/v1'], its base URL
    stays unset (only the unused [getTenantBaseURL] knows that prefix). *)
Lemma partition_counterexample :
  let acme := setAuth sample_user "T1" "R1" "acme" initialState in
  startsWith "" "/api/v1/super" = false /\
  baseURL (api_request acme (call_config api "get" "" None)) = None /\
  tenantSlug initialState = None /\
  baseURL (api_request initialState (call_config api "get" "/products" None))
    = None /\
  getTenantBaseURL initialState = "/api/v1".
Proof. repeat split. Qed.

(** C5, amended.  While a non-empty tenant slug [S] is stored, a
    tenant-instance call whose path is non-empty and does not start with
    ['/api/v1/super'] gets base URL ['/api/v1/S']; a call whose path starts
    with ['/api/v1/super'] keeps the base URL it came with, which for a
    call made through the instance is none; a call through the operator
    instance has base URL ['/api/v1/super'] whatever the store holds. *)
Theorem partition_routing :
  forall (st : AuthState) (m u : string) (body : option string),
    (forall S c, tenantSlug st = Some S -> S <> "" ->
       url c = Some u -> u <> "" -> startsWith u "/api/v1/super" = false ->
       baseURL (api_request st c) = Some ("/api/v1/" +:+ S)) /\
    (forall c, url c = Some u -> startsWith u "/api/v1/super" = true ->
       baseURL (api_request st c) = baseURL c) /\
    (startsWith u "/api/v1/super" = true ->
       baseURL (api_request st (call_config api m u body)) = None) /\
    baseURL (superApi_request st (call_config superApi m u body))
      = Some "/api/v1/super".
Proof.
  intros st m u body. repeat split.
  - intros S c HS HSne Hu Hune Hop.
    rewrite api_request_baseURL, HS, Hu. simpl.
    destruct (String.eqb_spec S ""); [contradiction|].
    destruct (String.eqb_spec u ""); [contradiction|].
    rewrite Hop. reflexivity.
  - intros c Hu Hop. rewrite api_request_baseURL, Hu.
    rewrite (tenant_scoped_operator_path _ Hop), andb_false_r. reflexivity.
  - intros Hop. rewrite api_request_baseURL.
    change (url (call_config api m u body)) with (Some u).
    rewrite (tenant_scoped_operator_path _ Hop), andb_false_r. reflexivity.
  - rewrite superApi_request_baseURL. reflexivity.
Qed.

Lemma partition_routing_witness :
  baseURL (api_request (setAuth sample_user "T1" "R1" "acme" initialState)
             (call_config api "get" "/products" None))
    = Some "/api/v1/acme" /\
  baseURL (api_request (setAuth sample_user "T1" "R1" "acme" initialState)
             (call_config api "get" "/api/v1/super/tenants" None))
    = None.
Proof.
  pose proof (partition_routing
                (setAuth sample_user "T1" "R1" "acme" initialState)
                "get" "/products" None) as (H1 & _).
  pose proof (partition_routing
                (setAuth sample_user "T1" "R1" "acme" initialState)
                "get" "/api/v1/super/tenants" None) as (_ & _ & H3 & _).
  split.
  - apply (H1 "acme"); [reflexivity | discriminate | reflexivity
                        | discriminate | reflexivity].
  - apply H3. reflexivity.
Defined.

(** ** Request gateway: authorization failures *)

Lemma api_on_error_no_refresh e w :
  is_401 e = true ->
  truthy (refreshToken (store w)) && truthy (tenantSlug (store w)) = false ->
  api_on_error e w =
  (mkWorld (logout (store w))
     (Some (if truthy (tenantSlug (store w))
            then tenant_login_path (interp (tenantSlug (store w)))
            else "/s-panel/access"))
     (net w),
   inr (Rejected e)).
Proof.
  intros H401 Hno. unfold api_on_error. rewrite H401, Hno.
  destruct (tenantSlug (store w)) as [s|]; simpl; [|reflexivity].
  destruct (String.eqb_spec s "") as [->|Hne]; simpl; [reflexivity|].
  destruct (String.eqb_spec s ""); [contradiction|]. reflexivity.
Qed.

(** C4.  A 401 on the tenant instance with no usable refresh token logs
    the tenant out, sends the browser to [/slug/login] when a slug is
    stored and to ['/s-panel/access'] otherwise, sends no request and
    rejects with the original error.  A 401 on the operator instance sends
    no request, logs the operator out, sends the browser to
    ['/s-panel/access'] and rejects with the original error. *)
Theorem non_refreshable_401 :
  forall (e : AxiosError) (w : World),
    is_401 e = true ->
    (truthy (refreshToken (store w)) = false ->
       api_on_error e w =
       (mkWorld (logout (store w))
          (Some (if truthy (tenantSlug (store w))
                 then tenant_login_path (interp (tenantSlug (store w)))
                 else "/s-panel/access"))
          (net w),
        inr (Rejected e)) /\
       tenant_fields_cleared (logout (store w))) /\
    superApi_on_error e w =
      (mkWorld (superLogout (store w)) (Some "/s-panel/access") (net w),
       Rejected e) /\
    operator_fields_cleared (superLogout (store w)).
Proof.
  intros e w H401. split; [|split].
  - intros Hrt. split.
    + apply api_on_error_no_refresh; [assumption|]. by rewrite Hrt.
    + unfold tenant_fields_cleared. simpl. auto.
  - unfold superApi_on_error. by rewrite H401.
  - unfold operator_fields_cleared. simpl. auto.
Qed.

Lemma non_refreshable_401_witness :
  api_on_error (unauthorized get_products) no_refresh_world
  = (mkWorld (logout (store no_refresh_world)) (Some "/acme/login") [],
     inr (Rejected (unauthorized get_products))).
Proof.
  exact (proj1 (proj1 (non_refreshable_401 (unauthorized get_products)
                         no_refresh_world eq_refl) eq_refl)).
Defined.

(** C9.  The tenant handler sends a refresh request only when both the
    stored refresh token and the stored slug are truthy; in every other
    case it sends nothing and settles at once, and on a 401 it then ends
    the tenant session: every tenant field of the store is null
    afterwards.  With a refresh token but a null slug, a 401 logs the
    tenant out and sends the browser to ['/s-panel/access']. *)
Theorem refresh_needs_token_and_slug :
  forall (e : AxiosError) (w : World),
    (forall k, (api_on_error e w).2 = inl k ->
       is_401 e = true /\ truthy (refreshToken (store w)) = true /\
       truthy (tenantSlug (store w)) = true) /\
    (truthy (refreshToken (store w)) && truthy (tenantSlug (store w)) = false ->
       net (api_on_error e w).1 = net w /\
       (api_on_error e w).2 = inr (Rejected e) /\
       (is_401 e = true ->
        tenant_fields_cleared (store (api_on_error e w).1) /\
        operator_part (store (api_on_error e w).1) = operator_part (store w))) /\
    (forall rt, is_401 e = true -> refreshToken (store w) = Some rt ->
       tenantSlug (store w) = None ->
       api_on_error e w =
       (mkWorld (logout (store w)) (Some "/s-panel/access") (net w),
        inr (Rejected e)) /\
       tenant_fields_cleared (store (api_on_error e w).1) /\
       refreshToken (store (api_on_error e w).1) = None /\
       operator_part (store (api_on_error e w).1) = operator_part (store w) /\
       href (api_on_error e w).1 = Some "/s-panel/access" /\
       net (api_on_error e w).1 = net w).
Proof.
  intros e w. split; [|split].
  - intros k. unfold api_on_error.
    destruct (is_401 e); [|discriminate].
    destruct (truthy (refreshToken (store w))),
      (truthy (tenantSlug (store w))); simpl; try discriminate. auto.
  - intros Hno. split; [|split].
    + unfold api_on_error. rewrite Hno. by destruct (is_401 e).
    + unfold api_on_error. rewrite Hno. by destruct (is_401 e).
    + intros H401. rewrite api_on_error_no_refresh by assumption.
      unfold tenant_fields_cleared. simpl. auto 10.
  - intros rt H401 Hrt Hslug.
    assert (Hno : truthy (refreshToken (store w))
                  && truthy (tenantSlug (store w)) = false).
    { rewrite Hslug. apply andb_false_r. }
    rewrite api_on_error_no_refresh by assumption.
    rewrite Hslug. unfold tenant_fields_cleared. simpl. auto 10.
Qed.

Lemma refresh_needs_token_and_slug_witness :
  refreshToken (store slugless_world) = Some "R1" /\
  api_on_error (unauthorized get_products) slugless_world
  = (mkWorld (mkAuthState None None None None false None None None false true)
             (Some "/s-panel/access") [],
     inr (Rejected (unauthorized get_products))).
Proof.
  split; [reflexivity|].
  exact (proj1 (proj2 (proj2 (refresh_needs_token_and_slug
                                (unauthorized get_products) slugless_world))
                      "R1" eq_refl eq_refl eq_refl)).
Defined.

Lemma api_on_error_refresh e w :
  is_401 e = true ->
  truthy (refreshToken (store w)) = true ->
  truthy (tenantSlug (store w)) = true ->
  api_on_error e w =
  (mkWorld (store w) (href w)
     (net w ++ [RefreshPost
                  ("/api/v1/" +:+ interp (tenantSlug (store w)) +:+ "/auth/refresh")
                  (interp (refreshToken (store w)))]),
   inl (mkSuspended e (interp (tenantSlug (store w))))).
Proof.
  intros H401 Hrt Hslug. unfold api_on_error. by rewrite H401, Hrt, Hslug.
Qed.

Lemma set_authorization_header tok c :
  headers (set_authorization tok c) !! "Authorization"
  = Some ("Bearer " +:+ tok).
Proof. unfold set_authorization. simpl. apply lookup_insert_eq. Qed.

Lemma replayed_app w c :
  replayed (mkWorld (store w) (href w) (net w ++ [Replay c]))
  = replayed w ++ [c].
Proof. unfold replayed. simpl. by rewrite omap_app. Qed.

(** C3.  A 401 on a tenant request, with refresh token and slug stored,
    sends one refresh request and suspends.  When that refresh answers
    with a truthy access token [T2] (nested under [tokens] or at top
    level), the resumed handler, whatever happened to the world
    meanwhile, stores [T2] as the access token, sends the failed
    request's configuration again exactly once, with
    [Authorization: Bearer T2] and otherwise unchanged, and settles with
    that second request's promise rather than with the 401. *)
Theorem refresh_success_replay :
  forall (e : AxiosError) (c : RequestConfig) (w : World)
         (d : RefreshData) (T2 : string),
    is_401 e = true ->
    config e = Some c ->
    truthy (refreshToken (store w)) = true ->
    truthy (tenantSlug (store w)) = true ->
    js_or (tokens_access_token d) (access_token d) = Some T2 ->
    T2 <> "" ->
    exists (k : Suspended) (w1 : World),
      api_on_error e w = (w1, inl k) /\
      store w1 = store w /\
      href w1 = href w /\
      net w1 =
        net w ++
        [RefreshPost
           ("/api/v1/" +:+ interp (tenantSlug (store w)) +:+ "/auth/refresh")
           (interp (refreshToken (store w)))] /\
      forall w' : World,
        let c' := set_authorization T2 c in
        let r := api_on_refresh k (RefreshOk (Some d)) w' in
        r.2 = Replayed c' /\
        store r.1 = setToken T2 (store w') /\
        token (store r.1) = Some T2 /\
        net r.1 = net w' ++ [Replay c'] /\
        replayed r.1 = replayed w' ++ [c'] /\
        refresh_calls r.1 = refresh_calls w' /\
        href r.1 = href w' /\
        headers c' !! "Authorization" = Some ("Bearer " +:+ T2) /\
        url c' = url c /\ baseURL c' = baseURL c /\ method c' = method c /\
        data c' = data c.
Proof.
  intros e c w d T2 H401 Hc Hrt Hslug Hnew Hne.
  eexists _, _. split; [by apply api_on_error_refresh|].
  repeat (split; [reflexivity|]).
  intros w'. unfold api_on_refresh. simpl. rewrite Hnew, Hc.
  rewrite (truthy_intro _ Hne). simpl.
  repeat split.
  - apply replayed_app.
  - unfold refresh_calls. simpl. rewrite filter_app, length_app. simpl. lia.
  - apply lookup_insert_eq.
Qed.

Lemma refresh_success_replay_witness :
  exists (k : Suspended) (w1 : World),
    api_on_error (unauthorized get_products) acme_world = (w1, inl k) /\
    (api_on_refresh k (RefreshOk (Some (mkRefreshData None (Some "T2")))) w1).2
    = Replayed (set_authorization "T2" get_products).
Proof.
  destruct (refresh_success_replay (unauthorized get_products) get_products
              acme_world (mkRefreshData None (Some "T2")) "T2"
              eq_refl eq_refl eq_refl eq_refl eq_refl ltac:(discriminate))
    as (k & w1 & H1 & _ & _ & _ & H2).
  exists k, w1. split; [exact H1 | exact (proj1 (H2 w1))].
Defined.

(** ** Request gateway: several requests failing together *)




Section SuspendAll.
Variable slug : string.



End SuspendAll.






(** ** Operator login: what follows a verified password *)

Module SuperLoginFacts.
Import SuperLogin.

Lemma handleStep2_ok s d r4 :
  password s <> "" ->
  handleStep2 s (Ok d) r4 =
  [SetLoading true; SetError "";
   Post "/auth/verify-step2"
        [("username", username s); ("password", password s)];
   SetHasPin (has_pin d); SetHasCode (has_code d)]
  ++ (if negb (has_pin d) && negb (has_code d) then doFinalLogin s "" "" r4
      else if negb (has_pin d) then [SetStep 4] else [SetStep 3])
  ++ [SetLoading false].
Proof.
  intros Hpw. unfold handleStep2.
  destruct (String.eqb_spec (password s) ""); [contradiction|].
  reflexivity.
Qed.

Example pin_then_finish :
  let p := exec password_page [SetStep 3; SetPin "4321"; SetHasCode false] in
  posts (exec p (handleStep3 (ui p) (Ok ()) (Err (mkErr None None)))) =
    [("/auth/verify-step3",
      [("username", "root"); ("password", "s3cret"); ("pin", "4321")]);
     ("/auth/verify-step4",
      [("username", "root"); ("password", "s3cret"); ("pin", "4321");
       ("security_code", "default")])] /\
  error (ui (exec p (handleStep3 (ui p) (Ok ()) (Err (mkErr None None)))))
    = "Xatolik".
Proof. split; reflexivity. Qed.

(** C6.  From step 2 with a password typed in, a verified password is
    followed by: with [{has_pin:false, has_code:true}] a single change of
    step, to 4, so that the steps shown are 2 and then 4 and never 3;
    with neither factor configured no change of step but the
    [verify-step4] request at once, carrying the placeholders ['000000']
    and ['default'], whose success establishes the operator session; with
    a PIN configured the step becomes 3. *)
Theorem step_skip :
  forall (p : Page) (r4 : Reply Step4Data),
    step (ui p) = 2 ->
    password (ui p) <> "" ->
    let s := ui p in
    let verify2 :=
      ("/auth/verify-step2",
       [("username", username s); ("password", password s)]) in
    (let effs := handleStep2 s (Ok (mkStep2 false true)) r4 in
     step (ui (exec p effs)) = 4 /\
     steps_visited p effs = [2; 2; 2; 2; 2; 4; 4] /\
     (3 ∉ steps_visited p effs) /\
     posts (exec p effs) = posts p ++ [verify2] /\
     auth (exec p effs) = auth p) /\
    (let effs := handleStep2 s (Ok (mkStep2 false false)) r4 in
     Forall (fun n => n = 2) (steps_visited p effs) /\
     posts (exec p effs) =
       posts p ++
       [verify2;
        ("/auth/verify-step4",
         [("username", username s); ("password", password s);
          ("pin", "000000"); ("security_code", "default")])] /\
     (forall d, r4 = Ok d ->
        auth (exec p effs) =
          setSuperAuth (admin d) (access_token d) (refresh_token d) (auth p) /\
        location (exec p effs) = Some "/s-panel/dashboard")) /\
    (forall has_code : bool,
       let effs := handleStep2 s (Ok (mkStep2 true has_code)) r4 in
       step (ui (exec p effs)) = 3 /\
       posts (exec p effs) = posts p ++ [verify2]).
Proof.
  intros p r4 Hstep Hpw s verify2. subst s verify2.
  split; [|split].
  - rewrite handleStep2_ok by assumption. simpl.
    unfold steps_visited. simpl. rewrite Hstep.
    repeat split. intros Hin.
    repeat (apply elem_of_cons in Hin as [Hin|Hin]; [discriminate|]).
    by apply elem_of_nil in Hin.
  - rewrite handleStep2_ok by assumption. simpl.
    unfold steps_visited.
    destruct r4 as [d|e]; simpl; rewrite Hstep.
    + split; [repeat constructor|]. split.
      * by rewrite <- app_assoc.
      * intros d' [= <-]. split; reflexivity.
    + split; [repeat constructor|]. split.
      * by rewrite <- app_assoc.
      * intros d' [=].
  - intros has_code. rewrite handleStep2_ok by assumption.
    destruct has_code; simpl; split; reflexivity.
Qed.

Lemma step_skip_witness :
  step (ui (exec password_page
              (handleStep2 (ui password_page) (Ok (mkStep2 false true))
                           (Err (mkErr None None)))))
  = 4.
Proof.
  exact (proj1 (proj1 (step_skip password_page (Err (mkErr None None))
                         eq_refl ltac:(discriminate)))).
Defined.

End SuperLoginFacts.

(** ** Payment poll of the tenant route guard *)

Module GateFacts.
Import Gate.

Lemma checkTenantStatus_ok urlSlug captured d g s :
  truthy urlSlug = true ->
  let required := to_bool (payment_required d) in
  let msg := or_default (payment_message d) "" in
  let r := checkTenantStatus urlSlug captured (Some d) g s in
  r.1 = mkState required msg /\
  session_of r.2 = session_of s /\
  (r.2 = s \/
   exists u, captured = Some u /\
             User.payment_required u <> Some required /\
             r.2 = setUser (User.with_payment u required msg) s).
Proof.
  intros Hslug. unfold checkTenantStatus. rewrite Hslug. simpl.
  destruct captured as [u|]; [|auto].
  destruct (differs (User.payment_required u) (to_bool (payment_required d)))
    eqn:Hd; simpl; [|auto].
  repeat split. right. exists u. repeat split.
  intros Heq. rewrite Heq in Hd. simpl in Hd.
  by destruct (to_bool (payment_required d)).
Qed.

Lemma checkTenantStatus_failed urlSlug captured g s :
  checkTenantStatus urlSlug captured None g s = (g, s).
Proof. unfold checkTenantStatus. by destruct (truthy urlSlug). Qed.




End GateFacts.

(** * Further properties *)

(** ** Credential store under arbitrary action sequences *)

Lemma act_flags_consistent s a : flags_consistent s -> flags_consistent (act s a).
Proof.
  unfold flags_consistent.
  intros (H1 & H2 & H3 & H4 & H5 & H6 & H7).
  destruct a; simpl; try tauto;
    repeat split; try tauto; try congruence; try discriminate;
    try (intros []; congruence); try (intros; exfalso; congruence).
Qed.

Lemma run_actions_snoc s acts a :
  run_actions s (acts ++ [a]) = act (run_actions s acts) a.
Proof. unfold run_actions. by rewrite fold_left_app. Qed.

(** X1.  Whatever store actions are called, in whatever order, from the
    initial store: the tenant is flagged authenticated exactly when a
    refresh token is stored and exactly when a slug is stored, and then an
    access token and a user are stored too; the operator flag holds
    exactly when each operator field is stored; the two flags are never
    both set. *)
Theorem store_flags_consistent :
  forall acts : list StoreAction,
    flags_consistent (run_actions initialState acts).
Proof.
  intros acts. induction acts as [|a acts IH] using rev_ind.
  - unfold flags_consistent. simpl.
    repeat split; try congruence; try discriminate; intros []; congruence.
  - rewrite run_actions_snoc. by apply act_flags_consistent.
Qed.

Lemma act_exclusive s a :
  is_setToken a = false -> domain_exclusive s -> domain_exclusive (act s a).
Proof.
  unfold domain_exclusive, tenant_has_tokens, operator_has_tokens.
  intros Hno Hex. destruct a; simpl in *; try discriminate; try exact Hex;
    intros [[H|H] [H'|H']]; congruence.
Qed.

(** X2.  From any store in which at most one domain has tokens, every
    sequence of store actions that contains no [setToken] ends in such a
    store again. *)
Theorem exclusive_without_setToken :
  forall (s : AuthState) (acts : list StoreAction),
    domain_exclusive s ->
    forallb (fun a => negb (is_setToken a)) acts = true ->
    domain_exclusive (run_actions s acts).
Proof.
  intros s acts. revert s.
  induction acts as [|a acts IH]; intros s Hex Hall; simpl in *; [exact Hex|].
  apply andb_prop in Hall as [Ha Hall].
  apply IH; [|exact Hall].
  apply act_exclusive; [|exact Hex]. by destruct (is_setToken a).
Qed.

Lemma exclusive_without_setToken_witness :
  domain_exclusive
    (run_actions initialState
       [DoSetAuth sample_user "T1" "R1" "acme"; DoSetUser director_user;
        DoSetSuperAuth sample_admin "A1" "R1"; DoLogout; DoSuperLogout]).
Proof.
  apply exclusive_without_setToken; [|reflexivity].
  intros [[H|H] _]; simpl in H; congruence.
Defined.

(** X3.  The two logouts are independent: each is idempotent, they
    commute, neither changes a field of the other domain, and after both
    nothing of either session is left, whatever the store held. *)
Theorem logouts_independent :
  forall s : AuthState,
    logout (logout s) = logout s /\
    superLogout (superLogout s) = superLogout s /\
    logout (superLogout s) = superLogout (logout s) /\
    operator_fields_cleared (superLogout s) /\
    tenant_fields_cleared (logout s) /\
    (superAdmin (logout s), superToken (logout s),
     superRefreshToken (logout s), isSuperAdmin (logout s))
    = (superAdmin s, superToken s, superRefreshToken s, isSuperAdmin s) /\
    (user (superLogout s), token (superLogout s),
     refreshToken (superLogout s), tenantSlug (superLogout s),
     isAuthenticated (superLogout s))
    = (user s, token s, refreshToken s, tenantSlug s, isAuthenticated s) /\
    logout (superLogout s) = setHasHydrated (_hasHydrated s) initialState.
Proof.
  intros s. unfold operator_fields_cleared, tenant_fields_cleared.
  repeat split.
Qed.

(** X4.  No tenant permission survives the end of the tenant session:
    after [logout] and after [setSuperAuth] every permission is refused,
    also to a former director; [setToken], [superLogout] and
    [setHasHydrated] never change an answer. *)
Theorem hasPermission_after_session :
  forall (p : string) (s : AuthState),
    hasPermission p (logout s) = false /\
    (forall a tok rt, hasPermission p (setSuperAuth a tok rt s) = false) /\
    (forall tok, hasPermission p (setToken tok s) = hasPermission p s) /\
    hasPermission p (superLogout s) = hasPermission p s /\
    (forall b, hasPermission p (setHasHydrated b s) = hasPermission p s).
Proof. intros p s. repeat split. Qed.

(** ** Request gateway: the remaining outcomes *)

(** X5.  An error that is not a 401, a network failure without any
    response included, passes through both instances untouched: nothing
    is sent, the store and the location stay as they are, and the caller
    gets the same error. *)
Theorem other_errors_pass_through :
  forall (e : AxiosError) (w : World),
    response_status e <> Some 401%Z ->
    api_on_error e w = (w, inr (Rejected e)) /\
    superApi_on_error e w = (w, Rejected e).
Proof.
  intros e w Hne.
  assert (H : is_401 e = false).
  { unfold is_401. destruct (response_status e) as [n|]; [|reflexivity].
    apply Z.eqb_neq. congruence. }
  unfold api_on_error, superApi_on_error. by rewrite H.
Qed.

Lemma other_errors_pass_through_witness :
  api_on_error (mkError (Some 500%Z) (Some get_products)) acme_world
  = (acme_world, inr (Rejected (mkError (Some 500%Z) (Some get_products)))) /\
  api_on_error (mkError None (Some get_products)) acme_world
  = (acme_world, inr (Rejected (mkError None (Some get_products)))).
Proof.
  split.
  - apply (other_errors_pass_through (mkError (Some 500%Z) (Some get_products))
             acme_world). discriminate.
  - apply (other_errors_pass_through (mkError None (Some get_products))
             acme_world). discriminate.
Defined.

(** X6.  When the refresh request fails, or answers with a null body, the
    resumed handler logs the tenant out, sends the browser to the login
    page of the slug it captured before the refresh, replays nothing and
    rejects with the original error. *)
Theorem refresh_failure_logs_out :
  forall (k : Suspended) (w : World) (r : RefreshReply),
    r = RefreshFailed \/ r = RefreshOk None ->
    api_on_refresh k r w =
    (mkWorld (logout (store w))
             (Some ("/" +:+ captured_slug k +:+ "/login")) (net w),
     Rejected (failed k)).
Proof. intros k w r [-> | ->]; reflexivity. Qed.

Lemma refresh_failure_logs_out_witness :
  (run acme_loop [Fails 0 (unauthorized get_products);
                  RefreshReturns 0 RefreshFailed]).(world)
  = mkWorld initialState (Some "/acme/login")
            [RefreshPost "/api/v1/acme/auth/refresh" "R1"].
Proof.
  pose proof (refresh_failure_logs_out
                (mkSuspended (unauthorized get_products) "acme")
                (mkWorld (store acme_world) None
                   [RefreshPost "/api/v1/acme/auth/refresh" "R1"])
                RefreshFailed (or_introl eq_refl)) as H.
  apply (f_equal fst) in H. exact H.
Defined.

(** X7.  A refresh that answers without a usable access token (neither
    [tokens.access_token] nor [access_token] truthy) changes nothing: the
    session is kept, the browser stays where it is, nothing is replayed,
    and the caller gets the original error. *)
Theorem refresh_without_token :
  forall (k : Suspended) (w : World) (d : RefreshData),
    truthy (tokens_access_token d) = false ->
    truthy (access_token d) = false ->
    api_on_refresh k (RefreshOk (Some d)) w = (w, Rejected (failed k)).
Proof.
  intros k w d H1 H2. unfold api_on_refresh, js_or. by rewrite H1, H2.
Qed.

Lemma refresh_without_token_witness :
  api_on_refresh (mkSuspended (unauthorized get_products) "acme")
                 (RefreshOk (Some (mkRefreshData None (Some ""))))
                 acme_world
  = (acme_world, Rejected (unauthorized get_products)).
Proof. apply refresh_without_token; reflexivity. Defined.

Lemma api_on_error_operator_part e w :
  operator_part (store (api_on_error e w).1) = operator_part (store w) /\
  _hasHydrated (store (api_on_error e w).1) = _hasHydrated (store w).
Proof.
  unfold api_on_error.
  destruct (is_401 e); [|done].
  by destruct (truthy (refreshToken (store w)) && truthy (tenantSlug (store w))).
Qed.

Lemma api_on_refresh_operator_part k r w :
  operator_part (store (api_on_refresh k r w).1) = operator_part (store w) /\
  _hasHydrated (store (api_on_refresh k r w).1) = _hasHydrated (store w).
Proof.
  unfold api_on_refresh. destruct r as [[d|]|]; [|done|done].
  destruct (truthy (js_or (tokens_access_token d) (access_token d))); [|done].
  by destruct (config (failed k)).
Qed.

Lemma step_operator_part l ev :
  operator_part (store (world (step l ev))) = operator_part (store (world l)) /\
  _hasHydrated (store (world (step l ev))) = _hasHydrated (store (world l)).
Proof.
  destruct ev as [id e|id r]; simpl.
  - pose proof (api_on_error_operator_part e (world l)) as H.
    by destruct (api_on_error e (world l)) as [w' [k|out]].
  - destruct (suspended l !! id) as [k|]; [|done].
    pose proof (api_on_refresh_operator_part k r (world l)) as H.
    by destruct (api_on_refresh k r (world l)) as [w' out].
Qed.

(** X8.  The tenant gateway never touches the operator session: whatever
    failed responses and refresh answers arrive, in whatever order, the
    operator fields and the hydration flag of the store are the ones it
    started with.  The operator gateway in turn never touches a tenant
    field. *)
Theorem gateways_keep_other_domain :
  forall (l : Loop) (evs : list Event),
    operator_part (store (world (run l evs))) = operator_part (store (world l)) /\
    _hasHydrated (store (world (run l evs))) = _hasHydrated (store (world l)) /\
    forall (e : AxiosError) (w : World),
      tenant_part (store (superApi_on_error e w).1) = tenant_part (store w) /\
      _hasHydrated (store (superApi_on_error e w).1) = _hasHydrated (store w).
Proof.
  intros l evs. split; [|split].
  - revert l. induction evs as [|ev evs IH]; intros l; [done|].
    change (run l (ev :: evs)) with (run (step l ev) evs).
    rewrite IH. apply step_operator_part.
  - revert l. induction evs as [|ev evs IH]; intros l; [done|].
    change (run l (ev :: evs)) with (run (step l ev) evs).
    rewrite IH. apply step_operator_part.
  - intros e w. unfold superApi_on_error. by destruct (is_401 e).
Qed.

Lemma step_net_bound l ev :
  refresh_calls (world (step l ev))
    = refresh_calls (world l) + (if is_fails ev then
         length (net (world (step l ev))) - length (net (world l)) else 0) /\
  length (replayed (world (step l ev)))
    = length (replayed (world l)) + (if is_fails ev then 0 else
         length (net (world (step l ev))) - length (net (world l))) /\
  length (net (world l)) <= length (net (world (step l ev)))
    <= S (length (net (world l))).
Proof.
  destruct ev as [id e|id r]; simpl.
  - unfold api_on_error.
    destruct (is_401 e); simpl; [|lia].
    destruct (truthy (refreshToken (store (world l))) &&
              truthy (tenantSlug (store (world l)))); simpl.
    + unfold refresh_calls, replayed. simpl.
      rewrite filter_app, omap_app, !length_app. simpl. lia.
    + unfold refresh_calls, replayed. simpl. lia.
  - destruct (suspended l !! id) as [k|]; [|lia].
    unfold api_on_refresh. destruct r as [[d|]|]; simpl;
      try (unfold refresh_calls, replayed; simpl; lia).
    destruct (truthy (js_or (tokens_access_token d) (access_token d)));
      simpl; [|lia].
    destruct (config (failed k)); simpl;
      unfold refresh_calls, replayed; simpl;
      rewrite ?filter_app, ?omap_app, ?length_app; simpl; lia.
Qed.

(** X9.  The gateway never retries beyond one refresh and one replay per
    failed request: over any run of events, the refresh requests sent
    number at most the failed responses that arrived, the replays at most
    the refresh answers that arrived, and nothing else is sent. *)
Theorem gateway_sends_bounded :
  forall (l : Loop) (evs : list Event),
    let l' := run l evs in
    refresh_calls (world l') - refresh_calls (world l)
      <= length (filter (fun ev => is_fails ev = true) evs) /\
    length (replayed (world l')) - length (replayed (world l))
      <= length (filter (fun ev => is_fails ev = false) evs) /\
    length (net (world l')) <= length (net (world l)) + length evs.
Proof.
  intros l evs. revert l.
  induction evs as [|ev evs IH]; intros l; simpl; [lia|].
  change (run l (ev :: evs)) with (run (step l ev) evs).
  specialize (IH (step l ev)). simpl in IH.
  destruct IH as (I1 & I2 & I3).
  destruct (step_net_bound l ev) as (B1 & B2 & B3).
  rewrite !filter_cons.
  destruct ev as [id e|id r]; simpl in *;
    repeat case_decide; try congruence; simpl; lia.
Qed.

(** ** Request interceptors *)

Lemma set_authorization_other tok c h :
  h <> "Authorization" ->
  headers (set_authorization tok c) !! h = headers c !! h.
Proof. intros Hne. unfold set_authorization. simpl. by apply lookup_insert_ne. Qed.

Lemma api_request_headers st c :
  headers (api_request st c) =
  if truthy (token st)
  then <["Authorization" := "Bearer " +:+ interp (token st)]> (headers c)
  else headers c.
Proof.
  unfold api_request.
  destruct (truthy (tenantSlug st) && tenant_scoped_url (url c)),
    (truthy (token st)); reflexivity.
Qed.

(** X10.  The tenant request interceptor changes nothing of a request but
    its base URL and its [Authorization] header: path, method, body and
    every other header go out as the caller gave them.  The header is
    written exactly when the stored token is truthy, and is then
    [Bearer <token>]; otherwise it is left as it came. *)
Theorem api_request_frame :
  forall (st : AuthState) (c : RequestConfig),
    url (api_request st c) = url c /\
    method (api_request st c) = method c /\
    data (api_request st c) = data c /\
    (forall h, h <> "Authorization" ->
               headers (api_request st c) !! h = headers c !! h) /\
    headers (api_request st c) !! "Authorization"
    = if truthy (token st) then Some ("Bearer " +:+ interp (token st))
      else headers c !! "Authorization".
Proof.
  intros st c. rewrite api_request_headers. unfold api_request.
  destruct (truthy (tenantSlug st) && tenant_scoped_url (url c)),
    (truthy (token st)); simpl; repeat split;
    try (intros h Hne; by apply lookup_insert_ne);
    try apply lookup_insert_eq.
Qed.

Lemma api_request_frame_witness :
  headers (api_request acme_store (call_config api "get" "/products" None))
    !! "Content-Type"
  = headers (call_config api "get" "/products" None) !! "Content-Type".
Proof.
  pose proof (api_request_frame acme_store
                (call_config api "get" "/products" None))
    as (_ & _ & _ & H & _).
  apply H. discriminate.
Defined.

Lemma set_authorization_twice tok c :
  set_authorization tok (set_authorization tok c) = set_authorization tok c.
Proof.
  unfold set_authorization. simpl. by rewrite insert_insert_eq.
Qed.

(** X11.  Both request interceptors are idempotent for a given store:
    running a configuration through the interceptor a second time changes
    nothing. *)
Theorem request_interceptors_idempotent :
  forall (st : AuthState) (c : RequestConfig),
    api_request st (api_request st c) = api_request st c /\
    superApi_request st (superApi_request st c) = superApi_request st c.
Proof.
  intros st c. split.
  - unfold api_request at 1.
    rewrite api_request_url.
    unfold api_request.
    destruct (truthy (tenantSlug st) && tenant_scoped_url (url c)),
      (truthy (token st)); simpl; try reflexivity;
      unfold set_authorization, set_baseURL; simpl;
      by rewrite ?insert_insert_eq.
  - unfold superApi_request.
    destruct (truthy (superToken st)) eqn:E; rewrite ?E; [|reflexivity].
    apply set_authorization_twice.
Qed.

(** X12.  Credentials do not outlive their session: once the tenant has
    logged out or an operator session has been established, the tenant
    interceptor hands every request on unchanged, with no base URL set and
    no token attached; once the operator has logged out or a tenant
    session has been established, so does the operator interceptor. *)
Theorem no_credentials_after_session :
  forall (s : AuthState) (c : RequestConfig),
    api_request (logout s) c = c /\
    (forall a tok rt, api_request (setSuperAuth a tok rt s) c = c) /\
    superApi_request (superLogout s) c = c /\
    (forall u tok rt slug, superApi_request (setAuth u tok rt slug s) c = c).
Proof. intros s c. repeat split. Qed.

(** ** Request gateway: a batch and its refresh answers *)





(** The response interceptor of [superApi] acts on status 401 only. *)
Lemma intercepted_cases (e : SuperLogin.ErrorResponse) (st : AuthState)
  (h : option string) :
  (SuperLogin.status e = Some 401%Z /\
   SuperLogin.intercepted e st h = (superLogout st, Some "/s-panel/access")) \/
  (SuperLogin.status e <> Some 401%Z /\
   SuperLogin.intercepted e st h = (st, h)).
Proof.
  unfold SuperLogin.intercepted, superApi_on_error, is_401. simpl.
  destruct (SuperLogin.status e) as [n|]; [|right; split; [discriminate|reflexivity]].
  destruct (Z.eqb_spec n 401) as [->|Hne].
  - left. split; reflexivity.
  - right. split; [congruence|reflexivity].
Qed.

(** ** Operator login page: every step *)

Module SuperLoginFlowFacts.
Import SuperLogin SuperLoginFlow.

(** X14.  Step 1.  A username that is blank after trimming sends nothing
    and changes nothing.  Otherwise exactly one [verify-step1] request is
    sent with the username as typed, and the page is never left loading.
    On success the page moves to step 2 with both messages cleared, and
    the store is untouched.  On a failure it stays on its step; status 423
    or 429 shows the server's [detail] as lock message (['Xatolik'] when
    the server gave none), any other failure shows that text as error.
    A failure with status 401 has first gone through the response
    interceptor: the operator fields of the store are null and
    [window.location.href] is ['/s-panel/access']; after any other
    failure the store and the location are as before. *)
Theorem step1_outcomes :
  forall (trim : string -> string) (p : Page) (r1 : Reply unit),
    let s := ui p in
    let p' := exec p (handleStep1 trim s r1) in
    (trim (username s) = "" -> p' = p) /\
    (trim (username s) <> "" ->
     posts p' = posts p ++ [("/auth/verify-step1", [("username", username s)])] /\
     location p' = location p /\
     loading (ui p') = false /\
     match r1 with
     | Ok _ =>
         step (ui p') = 2 /\ error (ui p') = "" /\ lockMsg (ui p') = Some "" /\
         auth p' = auth p /\ href p' = href p
     | Err e =>
         step (ui p') = step s /\
         (if bool_decide (status e = Some 423%Z)
             || bool_decide (status e = Some 429%Z)
          then lockMsg (ui p') = Some (or_default (detail e) "Xatolik") /\
               error (ui p') = ""
          else error (ui p') = or_default (detail e) "Xatolik" /\
               lockMsg (ui p') = Some "") /\
         (status e = Some 401%Z ->
          auth p' = superLogout (auth p) /\
          operator_fields_cleared (auth p') /\
          href p' = Some "/s-panel/access") /\
         (status e <> Some 401%Z -> auth p' = auth p /\ href p' = href p)
     end).
Proof.
  intros trim p r1 s p'. subst s p'. unfold handleStep1. split.
  - intros ->. reflexivity.
  - intros Hne. destruct (String.eqb_spec (trim (username (ui p))) "");
      [contradiction|].
    destruct r1 as [[]|e]; [simpl; repeat split|].
    destruct (bool_decide (status e = Some 423%Z)),
      (bool_decide (status e = Some 429%Z));
      cbn -[intercepted]; unfold intercept; cbn -[intercepted];
      (split; [reflexivity|]; split; [reflexivity|]; split; [reflexivity|];
       split; [reflexivity|]; split; [split; reflexivity|]);
      destruct (intercepted_cases e (auth p) (href p))
        as [[H401 ->]|[Hn ->]]; cbn;
      (split; [intros H; try contradiction|intros H; try contradiction]).
    all: repeat split; unfold operator_fields_cleared; simpl; auto.
Qed.

Lemma step1_outcomes_witness :
  let p := mkPage (set_username "admin" initial) initialState [] None None in
  let e := mkErr (Some 423%Z) (Some "Locked for 5 minutes") in
  let p' := exec p (handleStep1 (fun x => x) (ui p) (Err e)) in
  step (ui p') = 1 /\ lockMsg (ui p') = Some "Locked for 5 minutes" /\
  auth p' = initialState.
Proof.
  destruct (step1_outcomes (fun x => x)
              (mkPage (set_username "admin" initial) initialState [] None None)
              (Err (mkErr (Some 423%Z) (Some "Locked for 5 minutes"))))
    as [_ H].
  destruct H as (_ & _ & _ & H1 & H2 & _ & H3); [discriminate|].
  split; [exact H1|]. split; [exact (proj1 H2)|].
  apply H3. discriminate.
Defined.

(** A handler that nothing interrupts does what its two halves do one
    after the other. *)
Lemma handlers_compose trim s r1 r2 r3 r4 :
  handleStep1 trim s r1
  = (begin1 trim s).1
    ++ match (begin1 trim s).2 with Some _ => resume1 r1 | None => [] end /\
  handleStep2 s r2 r4
  = (begin2 s).1
    ++ match (begin2 s).2 with
       | Some _ =>
           (resume2 s r2).1
           ++ match (resume2 s r2).2 with
              | Some _ => resumeFinal r4
              | None => []
              end
       | None => []
       end /\
  handleStep3 s r3 r4
  = (begin3 s).1
    ++ match (begin3 s).2 with
       | Some _ =>
           (resume3 s r3).1
           ++ match (resume3 s r3).2 with
              | Some _ => resumeFinal r4
              | None => []
              end
       | None => []
       end /\
  handleStep4 s r4
  = (begin4 s).1
    ++ match (begin4 s).2 with Some _ => resumeFinal r4 | None => [] end.
Proof.
  unfold handleStep1, handleStep2, handleStep3, handleStep4, doFinalLogin,
    begin1, begin2, begin3, begin4, resume1, resume2, resume3, resumeFinal,
    beginFinal.
  repeat split.
  - destruct (String.eqb (trim (username s)) ""); [reflexivity|].
    destruct r1 as [[]|e]; reflexivity.
  - destruct (String.eqb (password s) ""); [reflexivity|].
    destruct r2 as [[[] []]|e]; simpl; rewrite ?app_nil_r; try reflexivity;
      destruct r4; reflexivity.
  - destruct (String.eqb (pin s) "" || Nat.ltb (String.length (pin s)) 4);
      [reflexivity|].
    destruct r3 as [[]|e]; simpl; rewrite ?app_nil_r; try reflexivity.
    destruct (hasCode s); simpl; rewrite ?app_nil_r; try reflexivity;
      destruct r4; reflexivity.
  - destruct (String.eqb (securityCode s) ""); [reflexivity|].
    destruct r4; simpl; rewrite ?app_nil_r; reflexivity.
Qed.

Lemma or_default_nonempty (a : option string) (d : string) :
  d <> "" -> or_default a d <> "".
Proof.
  intros Hd. unfold or_default. destruct a as [x|]; [|exact Hd].
  by destruct (String.eqb_spec x "").
Qed.

Lemma final_post_ok trim s p sc :
  post_ok trim
    ("/auth/verify-step4",
     [("username", username s); ("password", password s);
      ("pin", or_default (Some p) "000000");
      ("security_code", or_default (Some sc) "default")]).
Proof.
  right; right; right.
  exists (username s), (password s), (or_default (Some p) "000000"),
    (or_default (Some sc) "default").
  repeat split; by apply or_default_nonempty.
Qed.

Ltac no_new :=
  exists []; split; [by rewrite app_nil_r|]; split; [constructor|];
  intros aw; discriminate.

Ltac one_new x :=
  exists [x]; split; [reflexivity|]; split;
  [apply Forall_singleton|
   intros aw Haw; try discriminate; injection Haw as <-; exists x;
   split; [apply elem_of_cons; by left|]].

Lemma sound_begin1 trim p s : sound trim p (begin1 trim s).
Proof.
  unfold sound, begin1.
  destruct (String.eqb_spec (trim (username s)) "") as [E|Hne]; simpl.
  - repeat split; auto. no_new.
  - repeat split; auto.
    one_new ("/auth/verify-step1", [("username", username s)]).
    + left. by exists (username s).
    + reflexivity.
Qed.

Lemma sound_begin2 trim p s : sound trim p (begin2 s).
Proof.
  unfold sound, begin2.
  destruct (String.eqb_spec (password s) "") as [E|Hne]; simpl.
  - repeat split; auto. no_new.
  - repeat split; auto.
    one_new ("/auth/verify-step2",
             [("username", username s); ("password", password s)]).
    + right; left. by exists (username s), (password s).
    + reflexivity.
Qed.

Lemma sound_begin3 trim p s : sound trim p (begin3 s).
Proof.
  unfold sound, begin3.
  destruct (String.eqb (pin s) "" || Nat.ltb (String.length (pin s)) 4)
    eqn:Eg; simpl.
  - repeat split; auto. no_new.
  - apply orb_false_elim in Eg as [_ Elen]. apply Nat.ltb_ge in Elen.
    repeat split; auto.
    one_new ("/auth/verify-step3",
             [("username", username s); ("password", password s);
              ("pin", pin s)]).
    + right; right; left. by exists (username s), (password s), (pin s).
    + reflexivity.
Qed.

Lemma sound_begin4 trim p s : sound trim p (begin4 s).
Proof.
  unfold sound, begin4.
  destruct (String.eqb_spec (securityCode s) "") as [E|Hne]; simpl.
  - repeat split; auto. no_new.
  - repeat split; auto.
    one_new ("/auth/verify-step4",
             [("username", username s); ("password", password s);
              ("pin", or_default (Some (pin s)) "000000");
              ("security_code", or_default (Some (securityCode s)) "default")]).
    + apply final_post_ok.
    + simpl. eauto.
Qed.

Lemma sound_resume1 trim p r1 : sound trim p (resume1 r1, None).
Proof.
  unfold sound, resume1.
  destruct r1 as [[]|e]; simpl.
  - repeat split; auto. no_new.
  - destruct (bool_decide (status e = Some 423%Z)),
      (bool_decide (status e = Some 429%Z)); simpl;
      (repeat split; auto; no_new).
Qed.

Lemma sound_resume2 trim p s r2 : sound trim p (resume2 s r2).
Proof.
  unfold sound, resume2.
  destruct r2 as [[[] []]|e]; simpl;
    try (repeat split; auto; no_new).
  - repeat split; auto.
    one_new ("/auth/verify-step4",
             [("username", username s); ("password", password s);
              ("pin", "000000"); ("security_code", "default")]).
    + apply (final_post_ok trim s "" "").
    + simpl. eauto.
  - destruct (bool_decide (status e = Some 423%Z)); simpl;
      (repeat split; auto; no_new).
Qed.

Lemma sound_resume3 trim p s r3 : sound trim p (resume3 s r3).
Proof.
  unfold sound, resume3.
  destruct r3 as [[]|e]; simpl; [|repeat split; auto; no_new].
  destruct (hasCode s); simpl; [repeat split; auto; no_new|].
  repeat split; auto.
  one_new ("/auth/verify-step4",
           [("username", username s); ("password", password s);
            ("pin", or_default (Some (pin s)) "000000");
            ("security_code", "default")]).
  - apply (final_post_ok trim s (pin s) "").
  - simpl. eauto.
Qed.

Lemma sound_resumeFinal trim p r4 : sound trim p (resumeFinal r4, None).
Proof.
  unfold sound, resumeFinal.
  destruct r4 as [d|e]; simpl; (repeat split; auto; no_new).
Qed.

Lemma start_well_formed trim l b :
  well_formed trim l -> revealed (ui (page l)) = true ->
  sound trim (page l) b -> well_formed trim (start b l).
Proof.
  destruct b as [effs oaw].
  intros (Hstep & Hc & Hrev & Hposts & Hin) Hr
         (Hs & Hcc & Hrr & new & Hnew & Hok & Haw).
  cbn [fst snd] in *.
  unfold well_formed, start. cbn [page inflight fst snd].
  split; [by apply Hs|]. split; [by rewrite Hcc|].
  split; [rewrite Hrr, Hr; discriminate|].
  rewrite Hnew. split; [by apply Forall_app|].
  apply Forall_app. split.
  - eapply Forall_impl; [exact Hin|]. intros aw (x & Hx & Hax).
    exists x. split; [|done]. apply elem_of_app. by left.
  - destruct oaw as [aw|]; simpl; [|constructor]. apply Forall_singleton.
    destruct (Haw aw eq_refl) as (x & Hx & Hax).
    exists x. split; [apply elem_of_app; by right|done].
Qed.

Lemma finish_well_formed trim l i b aw0 :
  well_formed trim l -> inflight l !! i = Some aw0 ->
  sound trim (page l) b -> well_formed trim (finish i b l).
Proof.
  destruct b as [effs oaw].
  intros (Hstep & Hc & Hrev & Hposts & Hin) Hi
         (Hs & Hcc & Hrr & new & Hnew & Hok & Haw).
  cbn [fst snd] in *.
  assert (Hr : revealed (ui (page l)) = true).
  { destruct (revealed (ui (page l))); [done|].
    destruct (Hrev eq_refl) as (_ & _ & Hnil).
    rewrite Hnil in Hi. discriminate. }
  unfold well_formed, finish. cbn [page inflight fst snd].
  split; [by apply Hs|]. split; [by rewrite Hcc|].
  split; [rewrite Hrr, Hr; discriminate|].
  rewrite Hnew. split; [by apply Forall_app|].
  apply Forall_app. split.
  - apply Forall_delete.
    eapply Forall_impl; [exact Hin|]. intros aw (x & Hx & Hax).
    exists x. split; [|done]. apply elem_of_app. by left.
  - destruct oaw as [aw|]; simpl; [|constructor]. apply Forall_singleton.
    destruct (Haw aw eq_refl) as (x & Hx & Hax).
    exists x. split; [apply elem_of_app; by right|done].
Qed.

Lemma perform_well_formed trim l a :
  well_formed trim l -> well_formed trim (perform trim l a).
Proof.
  intros Hwf.
  destruct a; cbn [perform].
  - (* SecretClick *)
    destruct (isSuperAdmin (auth (page l))); [exact Hwf|].
    destruct (revealed (ui (page l))) eqn:Hr; cbn [negb];
      [destruct (step (ui (page l))) as [|[|[|[|[|?]]]]]; exact Hwf|].
    destruct Hwf as (Hstep & Hc & Hrev & Hposts & Hin).
    unfold handleSecretClick.
    destruct (Nat.leb_spec 5 (clickCount (ui (page l)) + 1));
      unfold well_formed; cbn [page inflight ui posts set_ui set_clicks
        step clickCount revealed].
    + repeat split; auto; try lia; discriminate.
    + rewrite Hr. repeat split; auto; try lia; by apply Hrev.
  - (* ResetFires *)
    destruct (resets l) as [|n]; [exact Hwf|].
    destruct Hwf as (Hstep & Hc & Hrev & Hposts & Hin).
    unfold well_formed; cbn [page inflight ui posts set_ui set_clicks
        step clickCount revealed].
    repeat split; auto; try lia; by apply Hrev.
  - destruct (isSuperAdmin (auth (page l))); [exact Hwf|].
    destruct (revealed (ui (page l))); cbn [negb]; [|exact Hwf].
    destruct (step (ui (page l))) as [|[|[|[|[|?]]]]]; exact Hwf.
  - destruct (isSuperAdmin (auth (page l))); [exact Hwf|].
    destruct (revealed (ui (page l))); cbn [negb]; [|exact Hwf].
    destruct (step (ui (page l))) as [|[|[|[|[|?]]]]]; exact Hwf.
  - destruct (isSuperAdmin (auth (page l))); [exact Hwf|].
    destruct (revealed (ui (page l))); cbn [negb]; [|exact Hwf].
    destruct (step (ui (page l))) as [|[|[|[|[|?]]]]]; exact Hwf.
  - destruct (isSuperAdmin (auth (page l))); [exact Hwf|].
    destruct (revealed (ui (page l))); cbn [negb]; [|exact Hwf].
    destruct (step (ui (page l))) as [|[|[|[|[|?]]]]]; exact Hwf.
  - destruct (isSuperAdmin (auth (page l))); [exact Hwf|].
    destruct (revealed (ui (page l))) eqn:Hr; cbn [negb]; [|exact Hwf].
    destruct (step (ui (page l))) as [|[|[|[|[|?]]]]]; try exact Hwf.
    apply start_well_formed; [exact Hwf|exact Hr|apply sound_begin1].
  - destruct (isSuperAdmin (auth (page l))); [exact Hwf|].
    destruct (revealed (ui (page l))) eqn:Hr; cbn [negb]; [|exact Hwf].
    destruct (step (ui (page l))) as [|[|[|[|[|?]]]]]; try exact Hwf.
    apply start_well_formed; [exact Hwf|exact Hr|apply sound_begin2].
  - destruct (isSuperAdmin (auth (page l))); [exact Hwf|].
    destruct (revealed (ui (page l))) eqn:Hr; cbn [negb]; [|exact Hwf].
    destruct (step (ui (page l))) as [|[|[|[|[|?]]]]]; try exact Hwf.
    apply start_well_formed; [exact Hwf|exact Hr|apply sound_begin3].
  - destruct (isSuperAdmin (auth (page l))); [exact Hwf|].
    destruct (revealed (ui (page l))) eqn:Hr; cbn [negb]; [|exact Hwf].
    destruct (step (ui (page l))) as [|[|[|[|[|?]]]]]; try exact Hwf.
    apply start_well_formed; [exact Hwf|exact Hr|apply sound_begin4].
  - (* Back *)
    destruct (isSuperAdmin (auth (page l))); [exact Hwf|].
    destruct (revealed (ui (page l))) eqn:Hr; cbn [negb]; [|exact Hwf].
    destruct Hwf as (Hstep & Hc & Hrev & Hposts & Hin).
    assert (Hb : well_formed trim
                   (on_page (fun p => exec p (back (ui (page l)))) l)).
    { unfold well_formed, on_page, back. cbn [page inflight].
      destruct (step (ui (page l))) as [|[|[|[|[|?]]]]] eqn:Hs;
        cbn [exec fold_left apply set_ui ui posts step clickCount revealed];
        rewrite ?Hs, ?Hr;
        (split; [try destruct (hasPin (ui (page l))); auto|]);
        (split; [exact Hc|]); (split; [discriminate|]); auto. }
    destruct (step (ui (page l))) as [|[|[|[|[|?]]]]]; exact Hb.
  - destruct (inflight l !! i) as [[]|] eqn:Hi; try exact Hwf.
    eapply finish_well_formed; [exact Hwf|exact Hi|apply sound_resume1].
  - destruct (inflight l !! i) as [[]|] eqn:Hi; try exact Hwf.
    eapply finish_well_formed; [exact Hwf|exact Hi|apply sound_resume2].
  - destruct (inflight l !! i) as [[]|] eqn:Hi; try exact Hwf.
    eapply finish_well_formed; [exact Hwf|exact Hi|apply sound_resume3].
  - destruct (inflight l !! i) as [[]|] eqn:Hi; try exact Hwf.
    eapply finish_well_formed; [exact Hwf|exact Hi|apply sound_resumeFinal].
Qed.

Lemma fresh_well_formed trim st : well_formed trim (fresh st).
Proof.
  unfold well_formed, fresh. simpl.
  repeat split; auto; try lia; constructor.
Qed.

Lemma session_snoc trim l acts a :
  session trim l (acts ++ [a]) = perform trim (session trim l acts) a.
Proof. unfold session. by rewrite fold_left_app. Qed.

(** X15.  Whatever the visitor does on the operator login page, whatever
    the server answers and in whatever order the answers arrive between
    the visitor's other events, starting from the page as first rendered:
    the step is always one of 1 to 4; the click counter never exceeds 4;
    before the page is revealed it is on step 1, nothing has been sent and
    no handler is suspended; every request sent is one of the four
    verification requests, [verify-step1] never with a username that is
    blank after trimming, [verify-step2] never with an empty password,
    [verify-step3] only with a PIN of at least four characters, and
    [verify-step4] never with an empty PIN or security code; and every
    suspended handler waits on a request that was sent, carrying the
    username and password of the render it was created in. *)
Theorem login_flow_well_formed :
  forall (trim : string -> string) (st : AuthState) (acts : list UserAction),
    well_formed trim (session trim (fresh st) acts).
Proof.
  intros trim st acts. induction acts as [|a acts IH] using rev_ind.
  - apply fresh_well_formed.
  - rewrite session_snoc. by apply perform_well_formed.
Qed.

(** While a request is in flight the page stays usable.  Going back
    during [verify-step2] and then receiving its success leaves the page
    on step 3 with the password emptied; the PIN submitted from there
    carries the empty password, and a 401 in answer to it logs the
    operator out through the interceptor. *)
Example back_during_request :
  let l := session (fun x => x) (mkLobby password_page 0 [])
             [Submit2; Back; Answer2 0 (Ok (mkStep2 true true));
              TypePin "1234"; Submit3] in
  let l' := perform (fun x => x) l
              (Answer3 0 (Err (mkErr (Some 401%Z) None))) in
  step (ui (page l)) = 3 /\
  last (posts (page l)) =
    Some ("/auth/verify-step3",
          [("username", "root"); ("password", ""); ("pin", "1234")]) /\
  inflight l' = [] /\
  href (page l') = Some "/s-panel/access" /\
  error (ui (page l')) = "Xatolik".
Proof. vm_compute. by repeat split. Qed.

Lemma session_preserves trim l acts :
  well_formed trim l -> well_formed trim (session trim l acts).
Proof.
  revert l. induction acts as [|a acts IH]; intros l Hwf; [exact Hwf|].
  simpl. apply IH. by apply perform_well_formed.
Qed.

Lemma session_clicks_bounded trim st acts :
  (clickCount (ui (page (session trim (fresh st) acts))) <= 4)%nat.
Proof.
  pose proof (session_preserves trim (fresh st) acts
                (fresh_well_formed trim st)) as (_ & H & _).
  exact H.
Qed.

Ltac settle e p :=
  cbn -[intercepted]; unfold intercept; cbn -[intercepted];
  destruct (intercepted_cases e (auth p) (href p)) as [[H401 ->]|[Hn ->]];
  cbn; repeat split; intros; auto; congruence.

(** X16.  What the operator login page does to the store and to the
    location, event by event.  The answer to a [verify-step4] request in
    flight, when it is a success, installs the operator session from it
    and navigates to the dashboard.  A failed answer to any request in
    flight goes through the response interceptor first: with status 401
    the operator fields of the store are cleared and
    [window.location.href] is set to ['/s-panel/access'], with any other
    status the store and the location stay as they were.  Every other
    event (clicks, typing, submits, back, timers, the successful answers
    of steps 1 to 3, answers to nothing in flight) leaves the store, the
    route and [window.location.href] untouched. *)
Theorem session_only_from_step4 :
  forall (trim : string -> string) (l : Lobby) (a : UserAction),
    let p := page l in
    let p' := page (perform trim l a) in
    match answered l a, a with
    | Some _, Answer4 _ (Ok d) =>
        auth p' = setSuperAuth (admin d) (access_token d) (refresh_token d)
                               (auth p) /\
        location p' = Some "/s-panel/dashboard" /\ href p' = href p
    | Some _, _ =>
        match answer_error a with
        | Some e =>
            location p' = location p /\
            (status e = Some 401%Z ->
             auth p' = superLogout (auth p) /\
             href p' = Some "/s-panel/access") /\
            (status e <> Some 401%Z -> auth p' = auth p /\ href p' = href p)
        | None =>
            auth p' = auth p /\ location p' = location p /\ href p' = href p
        end
    | None, _ =>
        auth p' = auth p /\ location p' = location p /\ href p' = href p
    end.
Proof.
  intros trim l a. cbv zeta.
  destruct a; cbn [answered answer_error perform].
  1,3,4,5,6,7,8,9,10,11:
    (destruct (isSuperAdmin (auth (page l))); [done|]);
    (destruct (revealed (ui (page l))); cbn [negb]; [|try done]).
  - done.
  - unfold handleSecretClick.
    by destruct (Nat.leb 5 (clickCount (ui (page l)) + 1)).
  - by destruct (step (ui (page l))) as [|[|[|[|[|?]]]]].
  - by destruct (step (ui (page l))) as [|[|[|[|[|?]]]]].
  - by destruct (step (ui (page l))) as [|[|[|[|[|?]]]]].
  - by destruct (step (ui (page l))) as [|[|[|[|[|?]]]]].
  - destruct (step (ui (page l))) as [|[|[|[|[|?]]]]]; try done.
    unfold start, begin1.
    by destruct (String.eqb (trim (username (ui (page l)))) "").
  - destruct (step (ui (page l))) as [|[|[|[|[|?]]]]]; try done.
    unfold start, begin2.
    by destruct (String.eqb (password (ui (page l))) "").
  - destruct (step (ui (page l))) as [|[|[|[|[|?]]]]]; try done.
    unfold start, begin3.
    by destruct (String.eqb (pin (ui (page l))) ""
                 || Nat.ltb (String.length (pin (ui (page l)))) 4).
  - destruct (step (ui (page l))) as [|[|[|[|[|?]]]]]; try done.
    unfold start, begin4.
    by destruct (String.eqb (securityCode (ui (page l))) "").
  - unfold on_page, back.
    by destruct (step (ui (page l))) as [|[|[|[|[|?]]]]].
  - by destruct (resets l).
  - destruct (inflight l !! i) as [[s0|s0|s0|s0]|]; try done.
    unfold finish, resume1. destruct r1 as [[]|e]; [done|].
    destruct (bool_decide (status e = Some 423%Z)),
      (bool_decide (status e = Some 429%Z)); settle e (page l).
  - destruct (inflight l !! i) as [[s0|s0|s0|s0]|]; try done.
    unfold finish, resume2. destruct r2 as [[[] []]|e]; try done.
    destruct (bool_decide (status e = Some 423%Z)); settle e (page l).
  - destruct (inflight l !! i) as [[s0|s0|s0|s0]|]; try done.
    unfold finish, resume3. destruct r3 as [[]|e].
    + by destruct (hasCode s0).
    + settle e (page l).
  - destruct (inflight l !! i) as [[s0|s0|s0|s0]|]; try (by destruct r4).
    unfold finish, resumeFinal. destruct r4 as [d|e]; [done|].
    settle e (page l).
Qed.

(** X17.  A failed verification keeps the page on its step.  When the
    request of step 2, 3 or 4 fails, or the final [verify-step4] request
    made from step 2 or 3 fails, the step is the one before, and the page
    is not left loading.  The text shown is the server's [detail], or
    ['Xatolik'] when there is none; only a 423 at step 2 goes to the lock
    message instead, as the server sent it, leaving the error empty. *)
Theorem failed_step_stays :
  forall (p : Page) (e : ErrorResponse) (r4 : Reply Step4Data),
    let s := ui p in
    let shown := or_default (detail e) "Xatolik" in
    (password s <> "" ->
     let p' := exec p (handleStep2 s (Err e) r4) in
     step (ui p') = step s /\ loading (ui p') = false /\
     if bool_decide (status e = Some 423%Z)
     then lockMsg (ui p') = detail e /\ error (ui p') = ""
     else error (ui p') = shown /\ lockMsg (ui p') = lockMsg s) /\
    (password s <> "" ->
     let p' := exec p (handleStep2 s (Ok (mkStep2 false false)) (Err e)) in
     step (ui p') = step s /\ loading (ui p') = false /\
     error (ui p') = shown) /\
    ((4 <= String.length (pin s))%nat ->
     let p' := exec p (handleStep3 s (Err e) r4) in
     step (ui p') = step s /\ loading (ui p') = false /\
     error (ui p') = shown) /\
    ((4 <= String.length (pin s))%nat -> hasCode s = false ->
     let p' := exec p (handleStep3 s (Ok ()) (Err e)) in
     step (ui p') = step s /\ loading (ui p') = false /\
     error (ui p') = shown) /\
    (securityCode s <> "" ->
     let p' := exec p (handleStep4 s (Err e)) in
     step (ui p') = step s /\ loading (ui p') = false /\
     error (ui p') = shown).
Proof.
  intros p e r4 s shown. subst s shown.
  assert (Hpin : (4 <= String.length (pin (ui p)))%nat ->
                 String.eqb (pin (ui p)) ""
                 || Nat.ltb (String.length (pin (ui p))) 4 = false).
  { intros Hlen. apply orb_false_intro.
    - apply String.eqb_neq. intros E. rewrite E in Hlen. simpl in Hlen. lia.
    - by apply Nat.ltb_ge. }
  split; [|split; [|split; [|split]]].
  - intros Hpw. unfold handleStep2.
    destruct (String.eqb_spec (password (ui p)) ""); [contradiction|].
    destruct (bool_decide (status e = Some 423%Z)); simpl; by repeat split.
  - intros Hpw. unfold handleStep2.
    destruct (String.eqb_spec (password (ui p)) ""); [contradiction|].
    simpl. by repeat split.
  - intros Hlen. unfold handleStep3. rewrite (Hpin Hlen).
    simpl. by repeat split.
  - intros Hlen Hc. unfold handleStep3. rewrite (Hpin Hlen), Hc.
    simpl. by repeat split.
  - intros Hsc. unfold handleStep4.
    destruct (String.eqb_spec (securityCode (ui p)) ""); [contradiction|].
    simpl. by repeat split.
Qed.

Lemma failed_step_stays_witness :
  let p := exec password_page
             [SetStep 3; SetPin "4321"; SetHasCode false] in
  let e := mkErr (Some 401%Z) (Some "PIN noto'g'ri") in
  step (ui (exec p (handleStep3 (ui p) (Err e) (Err e)))) = 3 /\
  error (ui (exec p (handleStep3 (ui p) (Err e) (Err e)))) = "PIN noto'g'ri".
Proof.
  pose proof (failed_step_stays
                (exec password_page
                   [SetStep 3; SetPin "4321"; SetHasCode false])
                (mkErr (Some 401%Z) (Some "PIN noto'g'ri"))
                (Err (mkErr (Some 401%Z) (Some "PIN noto'g'ri"))))
    as (_ & _ & H & _).
  destruct H as (H1 & _ & H2); [simpl; lia|]. split; [exact H1|exact H2].
Defined.

(** X18.  The back button never changes the username, the store, the
    requests sent or the location, and it always clears the error.  From
    step 2 it returns to step 1 and empties the password; from step 3 to
    step 2, emptying the PIN; from step 4 to step 3 when a PIN is
    configured and to step 2 otherwise, emptying the security code.  In
    particular, after the jump from step 2 to step 4 for an account with a
    security code only, back returns to step 2 with the password still
    typed in. *)
Theorem back_button :
  forall (p : Page),
    let s := ui p in
    let p' := exec p (back s) in
    username (ui p') = username s /\ auth p' = auth p /\
    posts p' = posts p /\ location p' = location p /\
    (step s = 2 -> step (ui p') = 1 /\ password (ui p') = "" /\
                   error (ui p') = "") /\
    (step s = 3 -> step (ui p') = 2 /\ pin (ui p') = "" /\
                   password (ui p') = password s /\ error (ui p') = "") /\
    (step s = 4 -> step (ui p') = (if hasPin s then 3 else 2) /\
                   securityCode (ui p') = "" /\ pin (ui p') = pin s /\
                   password (ui p') = password s /\ error (ui p') = "") /\
    (step s = 2 -> password s <> "" ->
     forall r4,
       let q := exec p (handleStep2 s (Ok (mkStep2 false true)) r4) in
       step (ui q) = 4 /\
       step (ui (exec q (back (ui q)))) = 2 /\
       password (ui (exec q (back (ui q)))) = password s).
Proof.
  intros p s p'. subst s p'. unfold back.
  split; [|split; [|split; [|split; [|split; [|split; [|split]]]]]].
  1,2,3,4: destruct (step (ui p)) as [|[|[|[|[|?]]]]]; reflexivity.
  - intros ->. by repeat split.
  - intros ->. by repeat split.
  - intros ->. by repeat split.
  - intros E Hpw r4. rewrite SuperLoginFacts.handleStep2_ok by assumption.
    simpl. by repeat split.
Qed.

Lemma back_button_witness :
  let q := exec password_page
             (handleStep2 (ui password_page) (Ok (mkStep2 false true))
                          (Err (mkErr None None))) in
  step (ui q) = 4 /\ step (ui (exec q (back (ui q)))) = 2.
Proof.
  pose proof (back_button password_page) as (_ & _ & _ & _ & _ & _ & _ & H).
  destruct (H eq_refl ltac:(discriminate) (Err (mkErr None None)))
    as (H1 & H2 & _).
  split; [exact H1 | exact H2].
Defined.

Lemma sound_revealed trim p b :
  sound trim p b -> revealed (ui (exec p b.1)) = revealed (ui p).
Proof. by intros (_ & _ & H & _). Qed.

Lemma perform_revealed_mono trim l a :
  revealed (ui (page l)) = true ->
  revealed (ui (page (perform trim l a))) = true.
Proof.
  intros Hrev.
  destruct a; cbn [perform].
  1,3,4,5,6,7,8,9,10,11:
    (destruct (isSuperAdmin (auth (page l))); [assumption|]);
    rewrite Hrev; cbn [negb].
  - assumption.
  - by destruct (step (ui (page l))) as [|[|[|[|[|?]]]]].
  - by destruct (step (ui (page l))) as [|[|[|[|[|?]]]]].
  - by destruct (step (ui (page l))) as [|[|[|[|[|?]]]]].
  - by destruct (step (ui (page l))) as [|[|[|[|[|?]]]]].
  - destruct (step (ui (page l))) as [|[|[|[|[|?]]]]]; try assumption.
    unfold start. cbn [page].
    by rewrite (sound_revealed trim _ _ (sound_begin1 trim _ _)).
  - destruct (step (ui (page l))) as [|[|[|[|[|?]]]]]; try assumption.
    unfold start. cbn [page].
    by rewrite (sound_revealed trim _ _ (sound_begin2 trim _ _)).
  - destruct (step (ui (page l))) as [|[|[|[|[|?]]]]]; try assumption.
    unfold start. cbn [page].
    by rewrite (sound_revealed trim _ _ (sound_begin3 trim _ _)).
  - destruct (step (ui (page l))) as [|[|[|[|[|?]]]]]; try assumption.
    unfold start. cbn [page].
    by rewrite (sound_revealed trim _ _ (sound_begin4 trim _ _)).
  - unfold on_page, back.
    by destruct (step (ui (page l))) as [|[|[|[|[|?]]]]].
  - by destruct (resets l).
  - destruct (inflight l !! i) as [[]|]; try assumption.
    unfold finish. cbn [page].
    by rewrite (sound_revealed trim _ _ (sound_resume1 trim _ _)).
  - destruct (inflight l !! i) as [[]|]; try assumption.
    unfold finish. cbn [page].
    by rewrite (sound_revealed trim _ _ (sound_resume2 trim _ _ _)).
  - destruct (inflight l !! i) as [[]|]; try assumption.
    unfold finish. cbn [page].
    by rewrite (sound_revealed trim _ _ (sound_resume3 trim _ _ _)).
  - destruct (inflight l !! i) as [[]|]; try assumption.
    unfold finish. cbn [page].
    by rewrite (sound_revealed trim _ _ (sound_resumeFinal trim _ _)).
Qed.

(** Before the reveal nothing is in flight, so only the clicks and the
    reset timers do anything. *)
Lemma perform_unrevealed trim l a k :
  revealed (ui (page l)) = false -> inflight l = [] ->
  (clickCount (ui (page l)) <= k)%nat ->
  let l' := perform trim l a in
  auth (page l') = auth (page l) /\ inflight l' = [] /\
  if is_click a
  then (revealed (ui (page l')) = false /\
        (clickCount (ui (page l')) <= S k)%nat) \/ (5 <= S k)%nat
  else revealed (ui (page l')) = false /\
       (clickCount (ui (page l')) <= k)%nat.
Proof.
  intros Hrev Hin Hk. cbv zeta.
  destruct a; cbn [perform is_click]; rewrite ?Hin; cbn [lookup list_lookup].
  2: { destruct (resets l); simpl; repeat split; try assumption; lia. }
  11,12,13,14: by rewrite lookup_nil.
  all: destruct (isSuperAdmin (auth (page l)));
    [split; [reflexivity|]; split; [assumption|];
     first [by split | left; split; [assumption|lia]]|].
  all: rewrite Hrev; cbn [negb]; try by repeat split.
  unfold handleSecretClick.
  destruct (Nat.leb_spec 5 (clickCount (ui (page l)) + 1)); simpl;
    (split; [reflexivity|]); (split; [assumption|]);
    [right; lia|left; split; [assumption|lia]].
Qed.

Lemma session_unrevealed trim st acts :
  let l := session trim (fresh st) acts in
  revealed (ui (page l)) = false ->
  auth (page l) = st /\ inflight l = [] /\
  (clickCount (ui (page l))
   <= length (filter (fun a => is_click a = true) acts))%nat.
Proof.
  induction acts as [|a acts IH] using rev_ind.
  - simpl. intros _. split; [reflexivity|]. split; [reflexivity|lia].
  - cbv zeta in *. rewrite session_snoc. intros Hrev.
    destruct (revealed (ui (page (session trim (fresh st) acts)))) eqn:E.
    { rewrite perform_revealed_mono in Hrev by assumption. discriminate. }
    destruct (IH eq_refl) as (Hauth & Hin & Hk).
    destruct (perform_unrevealed trim _ a _ E Hin Hk) as (Ha & Hi & Hc).
    cbv zeta in Ha, Hi, Hc. split; [congruence|]. split; [exact Hi|].
    rewrite filter_app, length_app. rewrite filter_cons, filter_nil.
    destruct (is_click a) eqn:Eclick; case_decide; try congruence; simpl.
    + destruct Hc as [[_ Hc]|Hc]; [lia|].
      pose proof (session_clicks_bounded trim st (acts ++ [a])) as Hle.
      rewrite session_snoc in Hle. lia.
    + destruct Hc as [_ Hc]. lia.
Qed.

Lemma five_clicks_reveal trim l :
  isSuperAdmin (auth (page l)) = false ->
  (clickCount (ui (page l)) <= 4)%nat ->
  revealed (ui (page (session trim l (repeat SecretClick 5)))) = true.
Proof.
  destruct l as [[s st ps loc h] n fl].
  destruct st as [u t r sl ia sa stk srt isa hh].
  destruct s as [rev cc stp un pw pn sc hp hc er ld lk].
  cbn [page ui auth isSuperAdmin clickCount]. intros -> Hcc.
  destruct rev; [reflexivity|].
  destruct cc as [|[|[|[|[|cc]]]]]; try lia; reflexivity.
Qed.

(** X19.  The decoy page.  However the visitor's events are ordered, the
    page is not revealed before the fifth click on the icon; once
    revealed it stays revealed; and unless an operator is already logged
    in, five clicks in a row always reveal it, whatever happened before. *)
Theorem secret_reveal :
  forall (trim : string -> string) (st : AuthState) (acts : list UserAction),
    (length (filter (fun a => is_click a = true) acts) < 5 ->
     revealed (ui (page (session trim (fresh st) acts))) = false)%nat /\
    (forall a,
       revealed (ui (page (session trim (fresh st) acts))) = true ->
       revealed (ui (page (session trim (fresh st) (acts ++ [a])))) = true) /\
    (isSuperAdmin st = false ->
     revealed (ui (page (session trim (fresh st)
                           (acts ++ repeat SecretClick 5)))) = true).
Proof.
  intros trim st acts. split; [|split].
  - intros Hlt.
    destruct (revealed (ui (page (session trim (fresh st) acts)))) eqn:E;
      [|reflexivity].
    exfalso. revert Hlt E.
    induction acts as [|a acts IH] using rev_ind; [discriminate|].
    rewrite session_snoc, filter_app, length_app, filter_cons, filter_nil.
    intros Hlt E.
    destruct (revealed (ui (page (session trim (fresh st) acts)))) eqn:E0.
    { apply IH; [|reflexivity]. lia. }
    destruct (session_unrevealed trim st acts E0) as (_ & Hin & Hk).
    destruct (perform_unrevealed trim _ a _ E0 Hin Hk) as (_ & _ & Hc).
    cbv zeta in Hc.
    destruct (is_click a); case_decide; try congruence; simpl in Hlt.
    + destruct Hc as [[Hc _]|Hc]; [congruence|lia].
    + destruct Hc as [Hc _]. congruence.
  - intros a Hrev. rewrite session_snoc. by apply perform_revealed_mono.
  - intros Hst. unfold session. rewrite fold_left_app.
    fold (session trim (fresh st) acts).
    fold (session trim (session trim (fresh st) acts) (repeat SecretClick 5)).
    pose proof (session_clicks_bounded trim st acts) as Hle.
    destruct (revealed (ui (page (session trim (fresh st) acts)))) eqn:E.
    + generalize (repeat SecretClick 5). intros cs.
      revert E. generalize (session trim (fresh st) acts). 
      induction cs as [|c cs IH]; intros l E; [exact E|].
      simpl. apply IH. by apply perform_revealed_mono.
    + apply five_clicks_reveal; [|exact Hle].
      destruct (session_unrevealed trim st acts E) as (-> & _). exact Hst.
Qed.

Lemma secret_reveal_witness :
  revealed (ui (page (session (fun x => x) (fresh initialState)
                        [SecretClick; SecretClick; ResetFires; SecretClick;
                         SecretClick]))) = false.
Proof.
  apply (proj1 (secret_reveal (fun x => x) initialState
                  [SecretClick; SecretClick; ResetFires; SecretClick;
                   SecretClick])).
  simpl. lia.
Defined.

End SuperLoginFlowFacts.

(** ** Route guards, payment polls and the tenant login page *)

Module RoutesFacts.
Import Gate Routes.

(** X20.  The tenant guard shows the protected page exactly when the
    store is hydrated, the tenant is authenticated, the stored slug is the
    slug of the route, and the guard is not payment-blocked; it shows the
    overlay exactly under the same conditions with the block set.  A
    session of one tenant on the route of another is sent to that route's
    login page.  The operator guard shows its page exactly when the store
    is hydrated and the operator flag is set. *)
Theorem guards_admit :
  forall (urlSlug : option string) (g : State) (s : AuthState),
    (render urlSlug g s = Children <->
     _hasHydrated s = true /\ isAuthenticated s = true /\
     (exists x, tenantSlug s = Some x /\ urlSlug = Some x) /\
     paymentBlock g = false) /\
    ((exists m, render urlSlug g s = Overlay m) <->
     _hasHydrated s = true /\ isAuthenticated s = true /\
     (exists x, tenantSlug s = Some x /\ urlSlug = Some x) /\
     paymentBlock g = true) /\
    (forall x y, tenantSlug s = Some x -> urlSlug = Some y -> x <> y ->
       _hasHydrated s = true ->
       render urlSlug g s = RedirectTo ("/" +:+ y +:+ "/login")) /\
    (Routes.renderSuper s = Children <->
     _hasHydrated s = true /\ isSuperAdmin s = true).
Proof.
  intros urlSlug g s.
  assert (Heq : strict_eq_null_undef (tenantSlug s) urlSlug = true <->
                exists x, tenantSlug s = Some x /\ urlSlug = Some x).
  { unfold strict_eq_null_undef.
    destruct (tenantSlug s) as [a|], urlSlug as [b|]; split;
      try discriminate; try (intros (x & ? & ?); discriminate).
    - intros H. apply String.eqb_eq in H. subst. eauto.
    - intros (x & [= ->] & [= ->]). apply String.eqb_refl. }
  unfold render, Routes.renderSuper.
  split; [|split; [|split]].
  - destruct (_hasHydrated s), (isAuthenticated s),
      (strict_eq_null_undef (tenantSlug s) urlSlug) eqn:E,
      (paymentBlock g); simpl; split; try discriminate;
      try (intros (? & ? & ? & ?); discriminate);
      try (intros (_ & _ & Hx & _); apply Heq in Hx; discriminate);
      try done.
    intros _. repeat split. by apply Heq.
  - destruct (_hasHydrated s), (isAuthenticated s),
      (strict_eq_null_undef (tenantSlug s) urlSlug) eqn:E,
      (paymentBlock g); simpl; split;
      try (intros (m & ?); discriminate);
      try (intros (? & ? & ? & ?); discriminate);
      try (intros (_ & _ & Hx & _); apply Heq in Hx; discriminate);
      try done.
    + intros _. repeat split. by apply Heq.
    + intros _. eauto.
  - intros x y Hx Hy Hne Hh. rewrite Hh, Hx, Hy. simpl.
    destruct (String.eqb_spec x y); [contradiction|].
    by rewrite orb_true_r.
  - destruct (_hasHydrated s), (isSuperAdmin s); simpl; split;
      try discriminate; try (intros [? ?]; discriminate); auto.
Qed.

Lemma guards_admit_witness :
  render (Some "boshqa") initial acme_store = RedirectTo "/boshqa/login".
Proof.
  pose proof (guards_admit (Some "boshqa") initial acme_store)
    as (_ & _ & H & _).
  apply (H "acme" "boshqa"); [reflexivity | reflexivity | discriminate
                              | reflexivity].
Defined.

Lemma last_cons_default {A} (l : list A) (x d : A) :
  List.last (x :: l) d = List.last l x.
Proof.
  revert x d. induction l as [|y l IH]; intros x d; [reflexivity|].
  change (List.last (x :: y :: l) d) with (List.last (y :: l) d).
  rewrite !IH. reflexivity.
Qed.

Lemma after_polls_cons urlSlug captured r rest g s :
  Routes.after_polls urlSlug captured (r :: rest) g s =
  Routes.after_polls urlSlug captured rest
    (checkTenantStatus urlSlug captured r g s).1
    (checkTenantStatus urlSlug captured r g s).2.
Proof.
  unfold Routes.after_polls. simpl.
  destruct (checkTenantStatus urlSlug captured r g s) as [g' s'].
  apply last_cons_default.
Qed.

(** X21.  After any series of polls, failed ones included, the guard is in
    the state dictated by the last poll that succeeded, and in the state it
    started in when none did.  No store along the way differs from the
    initial one in any field other than the user record. *)
Theorem last_poll_wins :
  forall (urlSlug : option string) (captured : option User.t)
         (replies : list (option TenantInfo)) (g : State) (s : AuthState),
    truthy urlSlug = true ->
    (Routes.after_polls urlSlug captured replies g s).1
    = match last (Routes.answers replies) with
      | Some d => Routes.gate_of d
      | None => g
      end /\
    Forall (fun x => session_of x.2 = session_of s)
           (polls urlSlug captured replies g s).
Proof.
  intros urlSlug captured replies g s Hslug. revert g s.
  induction replies as [|r replies IH]; intros g s.
  - split; [reflexivity|constructor].
  - rewrite after_polls_cons.
    destruct (IH (checkTenantStatus urlSlug captured r g s).1
                 (checkTenantStatus urlSlug captured r g s).2) as [IH1 IH2].
    assert (Hr : (checkTenantStatus urlSlug captured r g s).1
                 = match r with Some d => Routes.gate_of d | None => g end /\
                 session_of (checkTenantStatus urlSlug captured r g s).2
                 = session_of s).
    { destruct r as [d|].
      - destruct (GateFacts.checkTenantStatus_ok urlSlug captured d g s Hslug)
          as (H1 & H2 & _). split; [exact H1 | exact H2].
      - by rewrite GateFacts.checkTenantStatus_failed. }
    destruct Hr as [Hr1 Hr2]. split.
    + rewrite IH1. unfold Routes.answers. simpl.
      destruct r as [d|]; simpl.
      * rewrite last_cons. rewrite Hr1. unfold omap.
        by destruct (last (list_omap _ _ (fun r => r) replies)).
      * by rewrite Hr1.
    + simpl.
      destruct (checkTenantStatus urlSlug captured r g s) as [g' s'] eqn:E.
      simpl in *. constructor; [exact Hr2|].
      eapply Forall_impl; [exact IH2|]. simpl. intros x Hx. congruence.
Qed.

Lemma last_poll_wins_witness :
  (Routes.after_polls (Some "acme") (Some sample_user)
     [Some (acme_info true (Some "To'lov muddati o'tgan")); None;
      Some (acme_info false None); None]
     initial acme_store).1
  = mkState false "".
Proof.
  apply (proj1 (last_poll_wins (Some "acme") (Some sample_user)
                  [Some (acme_info true (Some "To'lov muddati o'tgan")); None;
                   Some (acme_info false None); None]
                  initial acme_store eq_refl)).
Defined.

(** X22.  The tenant login page.  With a slug in the route, one login
    request is sent to that tenant's endpoint and the page is not left
    loading.  On success the store holds a tenant session bound to the
    slug of the route and no operator session, the browser goes to
    [/slug], and from then on the guard of that route never redirects,
    while the guard of any other tenant's route sends to that route's
    login page.  On failure the store and the location are untouched and
    the server's [detail] is shown, or a fixed text when it is not a
    string. *)
Theorem tenant_login :
  forall (x : string) (r : TenantLogin.LoginReply) (p : TenantLogin.Page),
    x <> "" ->
    let p' := TenantLogin.handleLogin (Some x) r p in
    TenantLogin.sent p' =
      TenantLogin.sent p ++
      [("/api/v1/" +:+ x +:+ "/auth/login",
        [("username", TenantLogin.username (TenantLogin.ui p));
         ("password", TenantLogin.password (TenantLogin.ui p))])] /\
    TenantLogin.isLoading (TenantLogin.ui p') = false /\
    match r with
    | TenantLogin.LoginOk d =>
        TenantLogin.auth p' =
          setAuth (TenantLogin.user d) (TenantLogin.access_token d)
                  (TenantLogin.refresh_token d) x (TenantLogin.auth p) /\
        operator_fields_cleared (TenantLogin.auth p') /\
        TenantLogin.location p' = Some ("/" +:+ x) /\
        TenantLogin.error (TenantLogin.ui p') = "" /\
        (_hasHydrated (TenantLogin.auth p) = true ->
         forall g,
           render (Some x) g (TenantLogin.auth p') =
             (if paymentBlock g
              then Overlay (or_default (Some (paymentMsg g)) default_message)
              else Children) /\
           forall y, y <> x ->
             render (Some y) g (TenantLogin.auth p')
             = RedirectTo ("/" +:+ y +:+ "/login"))
    | TenantLogin.LoginFailed detail =>
        TenantLogin.auth p' = TenantLogin.auth p /\
        TenantLogin.location p' = TenantLogin.location p /\
        TenantLogin.error (TenantLogin.ui p') =
          match detail with
          | Some m => m
          | None => "Login xatolik yuz berdi"
          end
    end.
Proof.
  intros x r p Hx p'. subst p'. unfold TenantLogin.handleLogin.
  rewrite (truthy_intro _ Hx). simpl.
  destruct r as [d|detail]; simpl; [|by repeat split].
  repeat split.
  - unfold render. simpl. rewrite H. simpl. by rewrite String.eqb_refl.
  - intros y Hy. unfold render. simpl. rewrite H. simpl.
    destruct (String.eqb_spec x y); [congruence|]. reflexivity.
Qed.

Lemma tenant_login_witness :
  let p := TenantLogin.mkPage TenantLogin.initial
             (setHasHydrated true initialState) [] None in
  let d := TenantLogin.mkAuthResponse sample_user "T1" "R1" in
  render (Some "acme") initial
    (TenantLogin.auth (TenantLogin.handleLogin (Some "acme")
                         (TenantLogin.LoginOk d) p))
  = Children.
Proof.
  pose proof (tenant_login "acme"
                (TenantLogin.LoginOk
                   (TenantLogin.mkAuthResponse sample_user "T1" "R1"))
                (TenantLogin.mkPage TenantLogin.initial
                   (setHasHydrated true initialState) [] None)
                ltac:(discriminate)) as (_ & _ & _ & _ & _ & _ & H).
  exact (proj1 (H eq_refl initial)).
Defined.

End RoutesFacts.

(** ** Session idle monitor *)

Module SessionTimeoutFacts.
Import SessionTimeout.

Lemma timeout_positive : (0 < SESSION_TIMEOUT_MS)%N.
Proof. reflexivity. Qed.

Lemma tidy_cleared h :
  tidy h ->
  match timerRef h with
  | Some id => clearTimeout id (timers h)
  | None => timers h
  end = [].
Proof.
  intros (Hlen & Hin & _).
  destruct (timers h) as [|x [|y ts]] eqn:E; simpl in Hlen; try lia.
  - by destruct (timerRef h).
  - destruct (Hin x) as (Href & _); [apply elem_of_cons; by left|].
    rewrite Href. unfold clearTimeout. rewrite filter_cons.
    case_decide; [congruence|]. by rewrite filter_nil.
Qed.

Lemma tidy_resetTimer h :
  tidy h ->
  timers (resetTimer h) = [(next_timer h, (now h + SESSION_TIMEOUT_MS)%N)] /\
  timerRef (resetTimer h) = Some (next_timer h).
Proof.
  intros Ht. unfold resetTimer. simpl. by rewrite (tidy_cleared h Ht).
Qed.

Lemma tidy_fresh_timer h id :
  mounted h = true -> listeners h = EVENTS ->
  timers h = [(id, (now h + SESSION_TIMEOUT_MS)%N)] ->
  timerRef h = Some id ->
  tidy h.
Proof.
  intros Hm Hl Ht Hr. unfold tidy. rewrite Ht, Hm. simpl.
  split; [lia|]. split; [|split; [done|discriminate]].
  intros x Hx. apply list_elem_of_singleton in Hx as ->. simpl.
  pose proof timeout_positive. split; [done|lia].
Qed.

Lemma tidy_handle mode h ev : tidy h -> tidy (handle mode h ev).
Proof.
  intros Ht. pose proof Ht as (Hlen & Hin & Hon & Hoff).
  destruct ev as [| |name|dt]; simpl.
  - destruct (mounted h) eqn:Em; [exact Ht|].
    destruct (tidy_resetTimer h Ht) as [E1 E2].
    apply (tidy_fresh_timer _ (next_timer h)); simpl; try done.
    destruct (Hoff eq_refl) as [-> _]. reflexivity.
  - destruct (mounted h) eqn:Em; [|exact Ht].
    unfold unmount, tidy. simpl. rewrite (tidy_cleared h Ht), (Hon eq_refl).
    simpl. split; [lia|]. split; [|split; [discriminate|done]].
    intros x Hx. by apply elem_of_nil in Hx.
  - unfold dispatch. case_bool_decide as Hname; [|exact Ht].
    destruct (mounted h) eqn:Em.
    + destruct (tidy_resetTimer h Ht) as [E1 E2].
      apply (tidy_fresh_timer _ (next_timer h)); simpl; try done.
      by apply Hon.
    + destruct (Hoff eq_refl) as [El _]. rewrite El in Hname.
      by apply elem_of_nil in Hname.
  - unfold wait, tidy. simpl. split; [|split; [|split]].
    + etrans; [apply length_filter|exact Hlen].
    + intros x Hx. apply list_elem_of_filter in Hx as [Hlt Hx].
      destruct (Hin x Hx) as (Hr & _ & Hle). split; [done|]. split; [done|lia].
    + exact Hon.
    + intros Em. destruct (Hoff Em) as [-> ->]. by rewrite filter_nil.
Qed.

Lemma start_tidy w : tidy (start w).
Proof.
  unfold tidy. simpl. split; [lia|]. split; [|split; [discriminate|done]].
  intros x Hx. by apply elem_of_nil in Hx.
Qed.

Lemma hook_run_snoc mode h evs ev :
  run mode h (evs ++ [ev]) = handle mode (run mode h evs) ev.
Proof. unfold run. by rewrite fold_left_app. Qed.

Lemma hook_run_app mode h evs1 evs2 :
  run mode h (evs1 ++ evs2) = run mode (run mode h evs1) evs2.
Proof. unfold run. by rewrite fold_left_app. Qed.

Lemma run_tidy mode h evs : tidy h -> tidy (run mode h evs).
Proof.
  revert h. induction evs as [|ev evs IH]; intros h Ht; [exact Ht|].
  simpl. apply IH. by apply tidy_handle.
Qed.

(** X23.  Timers and listeners never pile up.  Whatever sequence of
    mounts, unmounts, DOM events and waits the hook goes through, at most
    one logout timer is pending, and it is the one [timerRef] holds, due
    within 30 minutes; while the effect is set up the handler is attached
    to each of the six event names exactly once; when it is not, no
    handler is attached and no timer is pending. *)
Theorem timers_never_accumulate :
  forall (mode : Mode) (w : World) (evs : list Ev),
    tidy (run mode (start w) evs).
Proof. intros mode w evs. apply run_tidy, start_tidy. Qed.

Lemma quiet_disarmed mode evs :
  forall h,
    timers h = [] -> (forall n, n ∈ listeners h -> n ∈ EVENTS) ->
    Forall quiet evs ->
    page (run mode h evs) = page h /\ timers (run mode h evs) = [].
Proof.
  induction evs as [|ev evs IH]; intros h Ht Hl Hq; [done|].
  inversion Hq as [|? ? Hev Hq']; subst. simpl.
  destruct ev as [| |name|dt]; simpl in Hev; try contradiction.
  - cbn [handle]. unfold dispatch.
    rewrite bool_decide_eq_false_2 by (intros Hn; apply Hev, Hl, Hn).
    by apply IH.
  - assert (E : timers (wait mode dt h) = [])
      by (unfold wait; simpl; by rewrite Ht).
    assert (P : page (wait mode dt h) = page h)
      by (unfold wait; simpl; by rewrite Ht).
    destruct (IH (wait mode dt h) E Hl Hq') as [E1 E2].
    split; [by rewrite <- P | exact E2].
Qed.

Lemma quiet_armed mode evs :
  forall h id d,
    timers h = [(id, d)] -> (now h < d)%N ->
    (forall n, n ∈ listeners h -> n ∈ EVENTS) ->
    Forall quiet evs ->
    let h' := run mode h evs in
    if decide (d <= now h + elapsed evs)%N
    then page h' = doLogout mode (page h) /\ timers h' = []
    else page h' = page h /\ timers h' = [(id, d)] /\
         now h' = (now h + elapsed evs)%N.
Proof.
  induction evs as [|ev evs IH]; intros h id d Ht Hnow Hl Hq.
  - simpl. rewrite N.add_0_r. case_decide; [lia|done].
  - inversion Hq as [|? ? Hev Hq']; subst. cbv zeta.
    change (run mode h (ev :: evs)) with (run mode (handle mode h ev) evs).
    destruct ev as [| |name|dt]; simpl in Hev; try contradiction.
    + simpl. unfold dispatch.
      rewrite bool_decide_eq_false_2 by (intros Hn; apply Hev, Hl, Hn).
      by apply IH.
    + simpl elapsed.
      destruct (decide (d <= now h + dt)%N) as [Hdue|Hnot].
      * assert (E : handle mode h (Wait dt) =
                    mkHook (now h + dt) [] (next_timer h) (timerRef h)
                           (listeners h) (mounted h)
                           (doLogout mode (page h))).
        { simpl. unfold wait. rewrite Ht, !filter_cons, !filter_nil. simpl.
          repeat case_decide; try lia. reflexivity. }
        rewrite E. case_decide; [|lia].
        apply (quiet_disarmed mode evs); try done.
      * assert (E : handle mode h (Wait dt) =
                    mkHook (now h + dt) [(id, d)] (next_timer h) (timerRef h)
                           (listeners h) (mounted h) (page h)).
        { simpl. unfold wait. rewrite Ht, !filter_cons, !filter_nil. simpl.
          repeat case_decide; try lia. reflexivity. }
        rewrite E.
        specialize (IH (mkHook (now h + dt) [(id, d)] (next_timer h)
                               (timerRef h) (listeners h) (mounted h) (page h))
                       id d eq_refl ltac:(simpl; lia) Hl Hq').
        simpl in IH. rewrite <- N.add_assoc in IH.
        repeat case_decide; try lia; exact IH.
Qed.

Lemma active_run mode gaps :
  forall h id,
    tidy h -> mounted h = true ->
    timers h = [(id, (now h + SESSION_TIMEOUT_MS)%N)] ->
    Forall active gaps ->
    let h' := run mode h (activity gaps) in
    page h' = page h /\ tidy h' /\ mounted h' = true /\
    exists id', timers h' = [(id', (now h' + SESSION_TIMEOUT_MS)%N)].
Proof.
  induction gaps as [|[dt name] gaps IH]; intros h id Ht Hm Htm Hact.
  - simpl. eauto.
  - inversion Hact as [|? ? [Hdt Hname] Hact']; subst. simpl in Hdt, Hname.
    cbv zeta.
    change (run mode h (activity ((dt, name) :: gaps)))
      with (run mode (handle mode (handle mode h (Wait dt)) (Dispatch name))
                (activity gaps)).
    pose proof (tidy_handle mode h (Wait dt) Ht) as Ht1.
    assert (Hp1 : page (handle mode h (Wait dt)) = page h /\
                  mounted (handle mode h (Wait dt)) = true /\
                  listeners (handle mode h (Wait dt)) = listeners h).
    { simpl. unfold wait. rewrite Htm, !filter_cons, !filter_nil. simpl.
      repeat case_decide; try lia. done. }
    destruct Hp1 as (Hp1 & Hm1 & Hl1).
    set (h1 := handle mode h (Wait dt)) in *.
    assert (El : listeners h1 = EVENTS) by (by apply Ht1).
    assert (E2 : handle mode h1 (Dispatch name) = resetTimer h1).
    { simpl. unfold dispatch. rewrite El.
      by rewrite bool_decide_eq_true_2. }
    rewrite E2.
    destruct (tidy_resetTimer h1 Ht1) as [Etm Eref].
    assert (Ht2 : tidy (resetTimer h1)).
    { rewrite <- E2. by apply tidy_handle. }
    destruct (IH (resetTimer h1) (next_timer h1) Ht2) as (Hp & Ht' & Hm' & Hid);
      try done.
    split; [|done]. rewrite Hp. simpl. exact Hp1.
Qed.

Lemma tidy_listeners h n : tidy h -> n ∈ listeners h -> n ∈ EVENTS.
Proof.
  intros (_ & _ & Hon & Hoff) Hn.
  destruct (mounted h).
  - by rewrite <- (Hon eq_refl).
  - destruct (Hoff eq_refl) as [El _]. rewrite El in Hn.
    by apply elem_of_nil in Hn.
Qed.

(** X24.  The idle logout.  After the hook is mounted and the visitor has
    been active for any length of time (each wait shorter than 30 minutes
    and followed by one of the six tracked events), let only time pass
    and untracked DOM events arrive.  If the time that passes adds up to
    30 minutes or more, [doLogout] has run, exactly once; if it adds up to
    less, the page is untouched.  What has run then sends no request and
    is scoped to its mode: in tenant mode the tenant fields are null, the
    operator fields untouched, and the browser is sent to the login page
    of the slug that was stored before the logout, or to ['/'] when none
    was; in operator mode the operator fields are null, the tenant fields
    untouched, and the browser is sent to ['/s-panel/access']. *)
Theorem idle_logout :
  forall (mode : Mode) (w : World) (gaps : list (N * string))
         (evs : list Ev),
    Forall active gaps ->
    Forall quiet evs ->
    let w' := page (run mode (start w) (Mount :: activity gaps ++ evs)) in
    ((elapsed evs < SESSION_TIMEOUT_MS)%N -> w' = w) /\
    ((SESSION_TIMEOUT_MS <= elapsed evs)%N ->
     w' = doLogout mode w /\
     net w' = net w /\
     _hasHydrated (store w') = _hasHydrated (store w) /\
     match mode with
     | tenant =>
         tenant_fields_cleared (store w') /\
         operator_part (store w') = operator_part (store w) /\
         href w' = Some (if truthy (tenantSlug (store w))
                         then "/" +:+ interp (tenantSlug (store w)) +:+ "/login"
                         else "/")
     | super =>
         operator_fields_cleared (store w') /\
         tenant_part (store w') = tenant_part (store w) /\
         href w' = Some "/s-panel/access"
     end).
Proof.
  intros mode w gaps evs Hact Hq.
  change (run mode (start w) (Mount :: activity gaps ++ evs))
    with (run mode (handle mode (start w) Mount) (activity gaps ++ evs)).
  rewrite hook_run_app.
  pose proof (tidy_handle mode (start w) Mount (start_tidy w)) as Ht0.
  destruct (active_run mode gaps (handle mode (start w) Mount) 1 Ht0)
    as (Hp & Ht & Hm & id' & Htm); try done.
  set (h1 := run mode (handle mode (start w) Mount) (activity gaps)) in *.
  pose proof timeout_positive.
  pose proof (quiet_armed mode evs h1 id' _ Htm ltac:(lia)
                (fun n => tidy_listeners h1 n Ht) Hq) as Hrun.
  cbv zeta in Hrun. cbv zeta. split.
  - intros Hlt. case_decide; [lia|]. destruct Hrun as (-> & _). exact Hp.
  - intros Hidle. case_decide; [|lia]. destruct Hrun as [-> _].
    rewrite Hp. simpl.
    destruct mode; simpl;
      unfold tenant_fields_cleared, operator_fields_cleared;
      by repeat split.
Qed.

Lemma idle_logout_witness :
  page (run tenant (start acme_world)
          (Mount :: activity [(1000%N, "mousemove"); (1799999%N, "keydown")]
           ++ [Wait 900000; Dispatch "keyup"; Wait 900000]))
  = doLogout tenant acme_world.
Proof.
  assert (Hact : Forall active
                   [(1000%N, "mousemove"); (1799999%N, "keydown")]).
  { repeat constructor; simpl; try reflexivity; unfold EVENTS; set_solver. }
  assert (Hq : Forall quiet [Wait 900000; Dispatch "keyup"; Wait 900000]).
  { repeat constructor; simpl; try exact I. unfold EVENTS.
    intros Hin.
    repeat (apply elem_of_cons in Hin as [Hin|Hin]; [discriminate|]).
    by apply elem_of_nil in Hin. }
  destruct (idle_logout tenant acme_world
              [(1000%N, "mousemove"); (1799999%N, "keydown")]
              [Wait 900000; Dispatch "keyup"; Wait 900000] Hact Hq)
    as [_ H].
  destruct H as [H _]; [vm_compute; discriminate|]. exact H.
Defined.

Lemma unmounted_stays mode evs :
  forall h,
    mounted h = false -> listeners h = [] -> timers h = [] ->
    Forall no_mount evs ->
    page (run mode h evs) = page h.
Proof.
  induction evs as [|ev evs IH]; intros h Hm Hl Ht Hno; [done|].
  inversion Hno as [|? ? Hev Hno']; subst. simpl.
  destruct ev as [| |name|dt]; simpl in Hev; try contradiction.
  - cbn [handle]. rewrite Hm. by apply IH.
  - cbn [handle]. unfold dispatch. rewrite Hl.
    rewrite bool_decide_eq_false_2 by apply not_elem_of_nil. by apply IH.
  - assert (E : timers (wait mode dt h) = [])
      by (unfold wait; simpl; by rewrite Ht).
    assert (P : page (wait mode dt h) = page h)
      by (unfold wait; simpl; by rewrite Ht).
    rewrite <- P. by apply IH.
Qed.

(** X25.  Unmounting cancels the logout.  Whatever happened before, once
    the hook is unmounted no timer can log the visitor out: however much
    time passes and whatever DOM events arrive afterwards, the page stays
    as it was at the unmount, until the hook is mounted again. *)
Theorem unmount_cancels :
  forall (mode : Mode) (w : World) (evs evs' : list Ev),
    Forall no_mount evs' ->
    page (run mode (start w) (evs ++ Unmount :: evs'))
    = page (run mode (start w) evs).
Proof.
  intros mode w evs evs' Hno. rewrite hook_run_app.
  change (run mode (run mode (start w) evs) (Unmount :: evs'))
    with (run mode (handle mode (run mode (start w) evs) Unmount) evs').
  pose proof (run_tidy mode (start w) evs (start_tidy w)) as Ht.
  pose proof (tidy_handle mode _ Unmount Ht) as Ht'.
  set (h := run mode (start w) evs) in *.
  assert (Hm : mounted (handle mode h Unmount) = false).
  { simpl. by destruct (mounted h) eqn:E. }
  destruct Ht' as (_ & _ & _ & Hoff). destruct (Hoff Hm) as [Hl Htm].
  rewrite unmounted_stays by assumption.
  simpl. by destruct (mounted h).
Qed.

Lemma unmount_cancels_witness :
  page (run tenant (start acme_world)
          ([Mount; Wait 5000] ++ Unmount :: [Wait 3600000; Dispatch "click"]))
  = acme_world.
Proof.
  apply (unmount_cancels tenant acme_world [Mount; Wait 5000]
           [Wait 3600000; Dispatch "click"]).
  repeat constructor.
Defined.

End SessionTimeoutFacts.

(** ** Operator security settings *)

Module SecuritySettingsFacts.
Import SecuritySettings.

Lemma save_body_values s :
  currentPassword s <> "" ->
  Forall (fun kv => kv.2 <> "") (save_body s).
Proof.
  intros Hcp. unfold save_body.
  destruct (String.eqb_spec (newPin s) ""), (String.eqb_spec (newCode s) "");
    simpl; repeat constructor; simpl; assumption.
Qed.

(** X26.  Saving the security settings.  Without the current password, or
    with neither a new PIN nor a new code, nothing is sent, the form, the
    store and the location are kept, and a message is shown.  Otherwise
    exactly one [setup-security] request is posted; its body holds the
    current password and only those of [pin] and [security_code] that
    were filled in, so no field of it is empty.  On success the three
    inputs are emptied, the page reloads its data, and the store and the
    location are untouched.  On failure the inputs are kept and the
    server's [detail] is shown, or ['Xatolik']; a failure with status 401
    has first gone through the response interceptor, so the operator
    fields of the store are cleared, [window.location.href] is
    ['/s-panel/access'] and the route guard no longer shows the page,
    while any other failure leaves the store and the location alone.
    The same holds of the answer on whatever page it finds, when the
    operator typed on while the request was in flight.  The page is never
    left saving. *)
Theorem save_security :
  forall (r : SuperLogin.Reply unit) (p q : Page),
    let s := ui p in
    let p' := handleSave r p in
    let q' := resumeSave r q in
    (currentPassword s = "" \/ (newPin s = "" /\ newCode s = "") ->
     sent p' = sent p /\
     (currentPassword (ui p'), newPin (ui p'), newCode (ui p'))
     = (currentPassword s, newPin s, newCode s) /\
     saving (ui p') = saving s /\
     auth p' = auth p /\ href p' = href p /\
     exists text, msg (ui p') = Some (false, text)) /\
    (currentPassword s <> "" -> newPin s <> "" \/ newCode s <> "" ->
     beginSave p
     = (mkPage (set_msg None (set_saving true s))
               (sent p ++ [("post", "/auth/setup-security", save_body s)])
               (auth p) (href p), true) /\
     saving (ui p') = false /\
     Forall (fun kv => kv.2 <> "") (save_body s) /\
     match r with
     | SuperLogin.Ok _ =>
         sent p' = sent p ++ [("post", "/auth/setup-security", save_body s);
                              ("get", "/auth/me", []);
                              ("get", "/auth/login-logs", [])] /\
         (currentPassword (ui p'), newPin (ui p'), newCode (ui p'))
         = ("", "", "") /\
         auth p' = auth p /\ href p' = href p /\
         exists text, msg (ui p') = Some (true, text)
     | SuperLogin.Err e =>
         sent p' = sent p ++ [("post", "/auth/setup-security", save_body s)] /\
         (currentPassword (ui p'), newPin (ui p'), newCode (ui p'))
         = (currentPassword s, newPin s, newCode s) /\
         msg (ui p') = Some (false, or_default (SuperLogin.detail e) "Xatolik") /\
         (SuperLogin.status e = Some 401%Z ->
          auth p' = superLogout (auth p) /\
          href p' = Some "/s-panel/access" /\
          Routes.renderSuper (auth p') <> Gate.Children) /\
         (SuperLogin.status e <> Some 401%Z ->
          auth p' = auth p /\ href p' = href p)
     end) /\
    (saving (ui q') = false /\
     match r with
     | SuperLogin.Ok _ =>
         sent q' = sent q ++ [("get", "/auth/me", []);
                              ("get", "/auth/login-logs", [])] /\
         (currentPassword (ui q'), newPin (ui q'), newCode (ui q'))
         = ("", "", "") /\
         auth q' = auth q /\ href q' = href q /\
         exists text, msg (ui q') = Some (true, text)
     | SuperLogin.Err e =>
         sent q' = sent q /\
         (currentPassword (ui q'), newPin (ui q'), newCode (ui q'))
         = (currentPassword (ui q), newPin (ui q), newCode (ui q)) /\
         msg (ui q') = Some (false, or_default (SuperLogin.detail e) "Xatolik") /\
         (SuperLogin.status e = Some 401%Z ->
          auth q' = superLogout (auth q) /\
          href q' = Some "/s-panel/access" /\
          Routes.renderSuper (auth q') <> Gate.Children) /\
         (SuperLogin.status e <> Some 401%Z ->
          auth q' = auth q /\ href q' = href q)
     end).
Proof.
  assert (Hguard : forall st, Routes.renderSuper (superLogout st)
                              <> Gate.Children).
  { intros st. unfold Routes.renderSuper. simpl.
    by destruct (_hasHydrated st). }
  assert (Hres : forall r q,
    let q' := resumeSave r q in
    saving (ui q') = false /\
     match r with
     | SuperLogin.Ok _ =>
         sent q' = sent q ++ [("get", "/auth/me", []);
                              ("get", "/auth/login-logs", [])] /\
         (currentPassword (ui q'), newPin (ui q'), newCode (ui q'))
         = ("", "", "") /\
         auth q' = auth q /\ href q' = href q /\
         exists text, msg (ui q') = Some (true, text)
     | SuperLogin.Err e =>
         sent q' = sent q /\
         (currentPassword (ui q'), newPin (ui q'), newCode (ui q'))
         = (currentPassword (ui q), newPin (ui q), newCode (ui q)) /\
         msg (ui q') = Some (false, or_default (SuperLogin.detail e) "Xatolik") /\
         (SuperLogin.status e = Some 401%Z ->
          auth q' = superLogout (auth q) /\
          href q' = Some "/s-panel/access" /\
          Routes.renderSuper (auth q') <> Gate.Children) /\
         (SuperLogin.status e <> Some 401%Z ->
          auth q' = auth q /\ href q' = href q)
     end).
  { intros r q. cbv zeta. unfold resumeSave.
    destruct r as [[]|e]; [simpl; repeat split; eauto|].
    cbn -[SuperLogin.intercepted].
    destruct (intercepted_cases e (auth q) (href q))
      as [[H401 ->]|[Hn ->]]; cbn; repeat split; intros; auto; congruence. }
  intros r p q s p' q'. subst s p' q'. split; [|split; [|apply Hres]].
  - unfold handleSave, beginSave. intros [Hcp|[Hpin Hcode]].
    + apply String.eqb_eq in Hcp. rewrite Hcp. simpl. repeat split. eauto.
    + apply String.eqb_eq in Hpin, Hcode. rewrite Hpin, Hcode. simpl.
      destruct (String.eqb (currentPassword (ui p)) ""); simpl;
        repeat split; eauto.
  - intros Hcp Hnew.
    assert (Hb : beginSave p
                 = (mkPage (set_msg None (set_saving true (ui p)))
                      (sent p ++ [("post", "/auth/setup-security",
                                   save_body (ui p))])
                      (auth p) (href p), true)).
    { unfold beginSave.
      destruct (String.eqb_spec (currentPassword (ui p)) "");
        [contradiction|].
      assert (E : String.eqb (newPin (ui p)) ""
                  && String.eqb (newCode (ui p)) "" = false).
      { destruct Hnew as [H|H]; apply String.eqb_neq in H; rewrite H;
          [reflexivity | apply andb_false_r]. }
      by rewrite E. }
    split; [exact Hb|]. unfold handleSave. rewrite Hb. cbn [fst snd].
    destruct (Hres r (mkPage (set_msg None (set_saving true (ui p)))
                        (sent p ++ [("post", "/auth/setup-security",
                                     save_body (ui p))])
                        (auth p) (href p))) as [Hs Hm].
    cbv zeta in Hs, Hm. split; [exact Hs|].
    split; [by apply save_body_values|].
    destruct r as [[]|e].
    + destruct Hm as (H1 & H2 & H3 & H4 & H5).
      cbn [sent auth href] in H1, H3, H4.
      rewrite H1, <- app_assoc. by repeat split.
    + exact Hm.
Qed.

Lemma save_security_witness :
  let p := mkPage (mkState "eski-parol" "4321" "" "" false false None) []
                  initialState None in
  sent (handleSave (SuperLogin.Ok ()) p)
  = [("post", "/auth/setup-security",
      [("current_password", "eski-parol"); ("pin", "4321")]);
     ("get", "/auth/me", []); ("get", "/auth/login-logs", [])].
Proof.
  pose proof (save_security (SuperLogin.Ok ())
                (mkPage (mkState "eski-parol" "4321" "" "" false false None) []
                        initialState None)
                (mkPage (mkState "" "" "" "" false false None) []
                        initialState None))
    as (_ & H & _).
  destruct H as (_ & _ & _ & H & _); [discriminate | left; discriminate|].
  exact H.
Defined.

End SecuritySettingsFacts.
